(** * finch: a shallow embedding of the dispatch core

    The development follows the Go sources of the repository:

    - [finch.go]: [Config], [LoadConfig], [Config.Save], [Finch];
    - [commands.go] (the part that is available): [Help], [Help.String],
      the [Command] interface, [CommandBase] with [Get] and [Set], and
      [CommandState];
    - [commands/stats/stats.go]: the usage counter [infoCollector];
    - [commands/help/help.go]: the help listing [helpCommand].

    Go values of type [interface{}] are a tagged union of their dynamic
    types, the process environment and the file system are an explicit
    [World], and a Go call that can panic returns an [Outcome]. *)

From Stdlib Require Import ZArith String Ascii List Lia Bool Sorted.
From stdpp Require Import base option gmap strings list fin_maps pretty.

Set Warnings "-register-all".

Local Open Scope string_scope.
Local Open Scope Z_scope.
Local Open Scope list_scope.

(** ** Outcomes of Go calls *)

(** A Go call either returns or panics (an unrecovered run-time panic:
    failed type assertion, nil dereference, assignment to a nil map). *)
Inductive Outcome (A : Type) : Type :=
| Returned (a : A)
| Panicked (msg : string).
Arguments Returned {A} a.
Arguments Panicked {A} msg.

#[global] Instance Outcome_ret : MRet Outcome := fun A a => Returned a.
#[global] Instance Outcome_bind : MBind Outcome := fun A B k o =>
  match o with
  | Returned a => k a
  | Panicked msg => Panicked msg
  end.

Definition returns {A} (o : Outcome A) : bool :=
  match o with Returned _ => true | Panicked _ => false end.

(** Go's [error] interface; [None] is the nil error. *)
Inductive error : Type :=
| PathError (op path : string)          (* *os.PathError of io/ioutil *)
| UnsupportedTypeError                  (* *json.UnsupportedTypeError *)
| SyntaxError                           (* *json.SyntaxError *)
| UnmarshalTypeError                    (* *json.UnmarshalTypeError *)
| APIError                              (* a failed request to the API *)
| CommandError (msg : string).          (* an error made by a command *)

(** ** Numbers *)

(** Go's [int] on the 64-bit targets: a signed 64-bit integer whose
    arithmetic wraps around. *)
Definition int_min : Z := - 2 ^ 63.
Definition int_max : Z := 2 ^ 63 - 1.
Definition wrap_int (n : Z) : Z := (n + 2 ^ 63) mod 2 ^ 64 - 2 ^ 63.

(** A finite [float64] is a dyadic number [f_mant * 2 ^ f_exp]; the JSON
    decoder never produces an infinity or a NaN. *)
Record float64 : Type := F64 { f_mant : Z; f_exp : Z }.

(** The value of an integer literal as [float64]: exact up to 53
    significant bits, rounded to nearest (ties to even) beyond. *)
Definition float64_of_int (n : Z) : float64 :=
  let a := Z.abs n in
  let k := Z.log2 a - 52 in
  if k <=? 0 then F64 n 0
  else
    let q := a / 2 ^ k in
    let r := a mod 2 ^ k in
    let half := 2 ^ (k - 1) in
    let q' := if r <? half then q
              else if half <? r then q + 1
              else if Z.even q then q else q + 1 in
    F64 (Z.sgn n * q') k.

(** The conversion [int(x)] of a [float64]: the fraction is discarded
    (truncation towards zero); a value outside the range of [int] has an
    implementation-specific result, [int_min] on amd64. *)
Definition int_of_float64 (x : float64) : Z :=
  let t := if 0 <=? f_exp x then f_mant x * 2 ^ f_exp x
           else Z.quot (f_mant x) (2 ^ (- f_exp x)) in
  if (int_min <=? t) && (t <=? int_max) then t else int_min.

(** ** Go values held in an [interface{}] *)

(** Addresses of the [map[string]int] objects made by [make]. *)
Definition loc := nat.

(** The dynamic types a [Config] entry has in this program: what
    [encoding/json] decodes into an [interface{}] (nil, bool, float64,
    string, []interface{}, map[string]interface{}), what the commands
    store themselves (an [int], a [UserMessageCount], which is nil or a
    reference to a map object), and a value [encoding/json] cannot encode
    (a func or a channel). *)
Inductive GoValue : Type :=
| VNil
| VBool (b : bool)
| VFloat64 (x : float64)
| VString (s : string)
| VSlice (l : list GoValue)
| VMap (m : gmap string GoValue)
| VInt (n : Z)
| VUserMessageCount (l : option loc)
| VFunc.

(** [UserMessageCount] is [map[string]int]. *)
Abbreviation UserMessageCount := (gmap string Z).

(** The heap of [UserMessageCount] objects. *)
Abbreviation Heap := (gmap loc (gmap string Z)).

(** ** JSON documents *)

(** A JSON document as [encoding/json] sees it; a number is given by the
    [float64] its literal denotes. *)
Inductive JSON : Type :=
| JNull
| JBool (b : bool)
| JNumber (x : float64)
| JString (s : string)
| JArray (l : list JSON)
| JObject (m : gmap string JSON).

(** *** Encoding: what [json.Marshal] writes for a value *)

(** [None] is the [*json.UnsupportedTypeError] of a value that has no
    JSON form. A [UserMessageCount] is written as the object of its
    counts, each count as an integer literal; a nil map as [null]. *)
Fixpoint toJSON (h : Heap) (v : GoValue) : option JSON :=
  match v with
  | VNil => Some JNull
  | VBool b => Some (JBool b)
  | VFloat64 x => Some (JNumber x)
  | VString s => Some (JString s)
  | VSlice l =>
      let js := map (toJSON h) l in
      if forallb (fun o : option JSON => bool_decide (is_Some o)) js
      then Some (JArray (map (default JNull) js)) else None
  | VMap m =>
      let js := toJSON h <$> m in
      if bool_decide (map_Forall (fun _ (o : option JSON) => is_Some o) js)
      then Some (JObject (default JNull <$> js)) else None
  | VInt n => Some (JNumber (float64_of_int n))
  | VUserMessageCount l =>
      match l ≫= (fun l => h !! l) with
      | Some counts => Some (JObject ((fun n => JNumber (float64_of_int n)) <$> counts))
      | None => Some JNull
      end
  | VFunc => None
  end.

(** *** Decoding: what [json.Unmarshal] stores in an [interface{}] *)

Fixpoint fromJSON (j : JSON) : GoValue :=
  match j with
  | JNull => VNil
  | JBool b => VBool b
  | JNumber x => VFloat64 x
  | JString s => VString s
  | JArray l => VSlice (map fromJSON l)
  | JObject m => VMap (fromJSON <$> m)
  end.



(** ** The messaging API (tgbotapi), as far as the commands use it *)

Record User : Type := mkUser {
  UserName : string;
  FirstName : string;
  LastName : string
}.

(** [func (u *User) String() string] of the API library: the user name,
    or else the first and last name. *)
Definition User_String (u : User) : string :=
  if decide (UserName u = "") then
    if decide (LastName u = "") then FirstName u
    else FirstName u +:+ " " +:+ LastName u
  else UserName u.

(** A message: its identifier, its sender (a pointer, nil for a message
    without one), the identifier of its chat, its text, and the text
    after a leading command ([CommandArguments()]). *)
Record Message : Type := mkMessage {
  MessageID : Z;
  From : option User;
  Chat_ID : Z;
  Text : string;
  CommandArguments : string
}.

(** An update; its field [Message] is a pointer, nil when the update
    carries no message. (A field that has the name of its type is written
    with a trailing underscore.) *)
Record Update : Type := mkUpdate {
  UpdateID : Z;
  Message_ : option Message
}.

(** [tgbotapi.MessageConfig], as made by [tgbotapi.NewMessage]. *)
Record MessageConfig : Type := mkMessageConfig {
  msg_ChatID : Z;
  msg_Text : string;
  msg_ReplyToMessageID : Z;
  msg_ReplyMarkup : string
}.

Definition tgbotapi_NewMessage (chatID : Z) (text : string) : MessageConfig :=
  mkMessageConfig chatID text 0 "".

Definition ModeMarkdown : string := "Markdown".

(** ** The world outside the process *)

(** The content of a file, up to what [encoding/json] makes of it: bytes
    that are no JSON text at all ([Malformed], which the decoder rejects
    with a [SyntaxError] before it stores anything), or the text of a
    document. *)
Inductive FileData : Type :=
| Malformed (raw : string)
| Document (j : JSON).

Record File : Type := mkFile {
  data : FileData;
  readable : bool;
  writable : bool
}.

(** The environment variables, the files by name, whether a file that
    does not exist yet can be created, the errors reported to the error
    tracker (raven), whether the messaging service can be reached, and the
    messages it has accepted. *)
Record World : Type := mkWorld {
  environ : gmap string string;
  files : gmap string File;
  can_create : bool;
  captured : list error;
  api_online : bool;
  outbox : list MessageConfig
}.

Definition set_files (fs : gmap string File) (w : World) : World :=
  mkWorld (environ w) fs (can_create w) (captured w) (api_online w) (outbox w).

(** [os.Getenv]: the empty string when the variable is not set. *)
Definition os_Getenv (w : World) (name : string) : string :=
  default "" (environ w !! name).

(** [ioutil.ReadFile]: the whole content, or the error of the open. *)
Definition ioutil_ReadFile (w : World) (fileName : string) : FileData + error :=
  match files w !! fileName with
  | Some f => if readable f then inl (data f) else inr (PathError "open" fileName)
  | None => inr (PathError "open" fileName)
  end.

(** [ioutil.WriteFile fileName b 0600]: the file is created with mode 0600
    when it does not exist, and truncated and rewritten when it does; the
    open fails on a file that is not writable and in a place where no file
    can be created, and then nothing is changed. *)
Definition ioutil_WriteFile (w : World) (fileName : string) (b : FileData)
  : World * option error :=
  match files w !! fileName with
  | Some f =>
      if writable f
      then (set_files (<[fileName := mkFile b (readable f) true]> (files w)) w, None)
      else (w, Some (PathError "open" fileName))
  | None =>
      if can_create w
      then (set_files (<[fileName := mkFile b true true]> (files w)) w, None)
      else (w, Some (PathError "open" fileName))
  end.

(** [raven.CaptureErrorAndWait err nil] and [raven.CaptureError err nil]. *)
Definition raven_CaptureError (w : World) (err : error) : World :=
  mkWorld (environ w) (files w) (can_create w) (captured w ++ [err])
          (api_online w) (outbox w).

(** [API.Send]: the message is accepted, or the request fails. *)
Definition API_Send (w : World) (message : MessageConfig) : World * option error :=
  if api_online w
  then (mkWorld (environ w) (files w) (can_create w) (captured w)
                (api_online w) (outbox w ++ [message]), None)
  else (w, Some APIError).

(** ** finch.go: the configuration *)

(** [type Config map[string]interface{}]: a Go map is nil or a reference
    to a table. Reading a nil map finds nothing; assigning to it panics. *)
Inductive Config : Type :=
| NilConfig
| MapConfig (m : gmap string GoValue).

(** The entries of a [Config]; a nil map has none. *)
Definition entries (c : Config) : gmap string GoValue :=
  match c with
  | NilConfig => ∅
  | MapConfig m => m
  end.

(** [c[key]]: the nil interface when the key is absent. *)
Definition index (c : Config) (key : string) : GoValue :=
  default VNil (entries c !! key).

(** [c[key] = value]. *)
Definition assign (c : Config) (key : string) (value : GoValue) : Outcome Config :=
  match c with
  | NilConfig => Panicked "assignment to entry in nil map"
  | MapConfig m => Returned (MapConfig (<[key := value]> m))
  end.

(** [json.Marshal(c)] for [c : *Config]: the object of the encoded
    entries, [null] for a nil map. *)
Definition json_Marshal (h : Heap) (c : Config) : FileData + error :=
  match c with
  | NilConfig => inl (Document JNull)
  | MapConfig m =>
      match toJSON h (VMap m) with
      | Some j => inl (Document j)
      | None => inr UnsupportedTypeError
      end
  end.

(** [json.Unmarshal(f, &cfg)]: the text is checked first and nothing is
    stored when it is not JSON; [null] sets the map to nil; an object is
    stored entry by entry, in a new table when the map is nil; any other
    document is a type error and nothing is stored. *)
Definition json_Unmarshal (f : FileData) (cfg : Config) : Config * option error :=
  match f with
  | Malformed _ => (cfg, Some SyntaxError)
  | Document JNull => (NilConfig, None)
  | Document (JObject m) => (MapConfig ((fromJSON <$> m) ∪ entries cfg), None)
  | Document _ => (cfg, Some UnmarshalTypeError)
  end.

(** The name of the file: [FINCH_CONFIG], or [config.json]. *)
Definition configFileName (w : World) : string :=
  let fileName := os_Getenv w "FINCH_CONFIG" in
  if decide (fileName = "") then "config.json" else fileName.

(** [func LoadConfig()], which returns a pointer to the [Config] and an
    [error]. *)
Definition LoadConfig (w : World) : Config * option error :=
  let fileName := configFileName w in
  match ioutil_ReadFile w fileName with
  | inr err => (MapConfig ∅, None)
  | inl f =>
      let cfg := NilConfig in
      let '(cfg, _) := json_Unmarshal f cfg in
      (cfg, None)
  end.

(** [func (c *Config) Save() error]. *)
Definition Save (sentryEnabled : bool) (h : Heap) (c : Config) (w : World)
  : World * option error :=
  match json_Marshal h c with
  | inr err =>
      let w := if sentryEnabled then raven_CaptureError w err else w in
      (w, Some err)
  | inl b =>
      let fileName := configFileName w in
      ioutil_WriteFile w fileName b
  end.

(** ** commands.go: the command contract *)

Module Help.

(** [type Help struct]. *)
Record t : Type := mk { Name : string; Description : string; Example : string }.

(** [Help{}]. *)
Definition zero : t := mk "" "" "".

(** [func (h Help) String(full bool) string]. *)
Definition String (h : t) (full : bool) : string :=
  let b := "" in
  let b := b +:+ Name h in
  let b := if full then b +:+ "
" else b +:+ " - " in
  let b := b +:+ Description h in
  let b := b +:+ "
" in
  let b := if full then
             let b := b +:+ "Example: " in
             let b := b +:+ Example h in
             b +:+ "
" else b in
  let b := b +:+ "
" in
  b.

End Help.

Section Commands.

(** The state the handlers of the commands work on. *)
Context {S : Type}.

(** [type Command interface]. A handler reads and writes the state of
    the process; [Execute] and [ExecuteKeyboard] also read and write the
    [WaitingForReply] flag of the command's own [CommandState]. *)
Record Command : Type := mkCommand {
  Help : Help.t;
  Init : S -> S * option error;
  ShouldExecute : Update -> bool;
  Execute : Update -> bool * S -> (bool * S) * option error;
  ExecuteKeyboard : Update -> bool * S -> (bool * S) * option error
}.

(** [type CommandBase struct]: the methods that do nothing. *)
Definition CommandBase : Command := {|
  Help := Help.zero;
  Init := fun s => (s, None);
  ShouldExecute := fun _ => false;
  Execute := fun _ s => (s, None);
  ExecuteKeyboard := fun _ s => (s, None)
|}.

(** [type CommandState struct]. *)
Record CommandState : Type := mkCommandState {
  Command_ : Command;
  WaitingForReply : bool
}.

(** [type Finch struct]: the user name of the bot ([API.Self.UserName]),
    the configuration and the registry. *)
Record Finch : Type := mkFinch {
  API_Self_UserName : string;
  Config_ : Config;
  Commands : list CommandState
}.

End Commands.
Arguments Command : clear implicits.
Arguments CommandState : clear implicits.
Arguments Finch : clear implicits.

(** ** The memory of the process *)

Section Process.

Context {S : Type}.

(** The package-level variables: [bot] and [sentryEnabled] of package
    finch, [userMessages] of the stats package (a map, so nil or a
    reference), and the heap its map objects live in. *)
Record Process : Type := mkProcess {
  bot : Finch S;
  sentryEnabled : bool;
  heap : Heap;
  userMessages : option loc
}.

Definition set_Config (c : Config) (p : Process) : Process :=
  mkProcess (mkFinch (API_Self_UserName (bot p)) c (Commands (bot p)))
            (sentryEnabled p) (heap p) (userMessages p).

Definition set_heap (h : Heap) (p : Process) : Process :=
  mkProcess (bot p) (sentryEnabled p) h (userMessages p).

Definition set_userMessages (l : option loc) (p : Process) : Process :=
  mkProcess (bot p) (sentryEnabled p) (heap p) l.

(** [make(UserMessageCount)]: a new, empty map object. *)
Definition make (h : Heap) : Heap * loc :=
  let l := fresh (dom h) in (<[l := ∅]> h, l).

(** The map object a [UserMessageCount] refers to; a nil map reads as
    the empty map. *)
Definition deref (h : Heap) (l : option loc) : UserMessageCount :=
  default ∅ (l ≫= fun l => h !! l).

(** [m[key] = n] for a [UserMessageCount] [m]. *)
Definition store (h : Heap) (m : option loc) (key : string) (n : Z) : Outcome Heap :=
  match m with
  | None => Panicked "assignment to entry in nil map"
  | Some l => Returned (<[l := <[key := n]> (default ∅ (h !! l))]> h)
  end.

(** *** commands.go: [CommandBase.Get] and [CommandBase.Set] *)

(** [func (cmd CommandBase) Get(key string) interface{}]. *)
Definition Get (p : Process) (key : string) : GoValue :=
  index (Config_ (bot p)) key.

(** [func (cmd CommandBase) Set(key string, value interface{})], named
    [Set_] here: the function has no result; what [Save] returns is
    dropped. *)
Definition Set_ (key : string) (value : GoValue) (p : Process) (w : World)
  : Outcome (Process * World) :=
  c ← assign (Config_ (bot p)) key value;
  let p := set_Config c p in
  let '(w, _) := Save (sentryEnabled p) (heap p) (Config_ (bot p)) w in
  Returned (p, w).

(** *** commands/stats/stats.go: the collector *)

(** The body of [for user, count := range stored.(map[string]interface{})]
    in [Init], over the entries in the order the loop visits them. *)
Fixpoint Init_range (kvs : list (string * GoValue)) (p : Process) : Outcome Process :=
  match kvs with
  | [] => Returned p
  | (user, count) :: kvs =>
      match count with
      | VFloat64 x =>
          h ← store (heap p) (userMessages p) user (int_of_float64 x);
          Init_range kvs (set_heap h p)
      | _ => Panicked "interface conversion: interface {} is not float64"
      end
  end.

(** The dynamic type of a value is [float64]. *)
Definition is_float64 (v : GoValue) : bool :=
  match v with VFloat64 _ => true | _ => false end.

(** [int(count.(float64))] where the assertion holds. *)
Definition count_of (v : GoValue) : Z :=
  match v with VFloat64 x => int_of_float64 x | _ => 0 end.

(** The counts after the loop of [Init] has visited the entries [kvs]. *)
Definition loaded (counts : UserMessageCount) (kvs : list (string * GoValue))
  : UserMessageCount :=
  foldl (fun acc kv => <[kv.1 := count_of kv.2]> acc) counts kvs.

(** [func (cmd *infoCollector) Init(c *finch.CommandState, f *finch.Finch) error]. *)
Definition infoCollector_Init (p : Process) : Outcome (Process * option error) :=
  let stored := Get p "stats" in
  match stored with
  | VNil =>
      let '(h, l) := make (heap p) in
      Returned (set_userMessages (Some l) (set_heap h p), None)
  | VMap m =>
      p ← Init_range (map_to_list m) p;
      Returned (p, None)
  | _ => Panicked "interface conversion: interface {} is not map[string]interface {}"
  end.

(** [func (cmd *infoCollector) Help() finch.Help]. *)
Definition infoCollector_Help : Help.t := Help.mk "Stats Collector" "" "".

(** [func (cmd *infoCommand) Help() finch.Help] (without the [Botfather]
    field, which [Help.String] does not read). *)
Definition infoCommand_Help : Help.t :=
  Help.mk "Stats" "Displays some statistics" "/stats@@".

(** [func (cmd *infoCollector) ShouldExecute(update tgbotapi.Update) bool]. *)
Definition infoCollector_ShouldExecute (update : Update) : bool := true.

(** [update.Message.From.String()]. *)
Definition sender (update : Update) : Outcome string :=
  match Message_ update with
  | None => Panicked "invalid memory address or nil pointer dereference"
  | Some m =>
      match From m with
      | None => Panicked "invalid memory address or nil pointer dereference"
      | Some u => Returned (User_String u)
      end
  end.

(** [func (cmd *infoCollector) Execute(update tgbotapi.Update) error]. *)
Definition infoCollector_Execute (update : Update) (p : Process) (w : World)
  : Outcome (Process * World * option error) :=
  key ← sender update;
  let counts := deref (heap p) (userMessages p) in
  h ← match counts !! key with
      | None => store (heap p) (userMessages p) key 1
      | Some n => store (heap p) (userMessages p) key (wrap_int (n + 1))
      end;
  let p := set_heap h p in
  '(p, w) ← Set_ "stats" (VUserMessageCount (userMessages p)) p w;
  Returned (p, w, None).

(** The counts after one more message of the sender [key]: the two
    branches of [Execute]. *)
Definition bump (counts : UserMessageCount) (key : string) : UserMessageCount :=
  <[key := match counts !! key with
           | None => 1
           | Some n => wrap_int (n + 1)
           end]> counts.

(** The counts after the messages of a list. *)
Definition counts_after (counts : UserMessageCount) (updates : list Update)
  : UserMessageCount :=
  foldl (fun acc u => match sender u with
                      | Returned key => bump acc key
                      | Panicked _ => acc
                      end) counts updates.

(** The collector runs on the updates of a list, one after the other. *)
Fixpoint run_collector (updates : list Update) (p : Process) (w : World)
  : Outcome (Process * World) :=
  match updates with
  | [] => Returned (p, w)
  | update :: updates =>
      '(p, w, _) ← infoCollector_Execute update p w;
      run_collector updates p w
  end.

(** The mapping stored in the configuration under ["stats"]. *)
Definition stored_counts (p : Process) : UserMessageCount :=
  match Get p "stats" with
  | VUserMessageCount l => deref (heap p) l
  | _ => ∅
  end.

(** The number of the updates of a list that a sender, given by the
    string of its identity, has sent. *)
Definition sent_by (name : string) (update : Update) : bool :=
  match sender update with
  | Returned s => bool_decide (s = name)
  | Panicked _ => false
  end.

Definition messages_from (name : string) (updates : list Update) : Z :=
  Z.of_nat (length (List.filter (sent_by name) updates)).

End Process.
Arguments Process : clear implicits.

(** ** finch.go: sending *)

(** [strings.Replace(s, "@@", new, -1)]: every occurrence of ["@@"],
    found from left to right without overlap, is replaced. *)
Fixpoint replace_atat (new s : string) : string :=
  match s with
  | EmptyString => EmptyString
  | String c rest =>
      match rest with
      | String c' rest' =>
          if Ascii.eqb c "@" && Ascii.eqb c' "@"
          then new +:+ replace_atat new rest'
          else String c (replace_atat new rest)
      | EmptyString => String c EmptyString
      end
  end.

Definition newline : string := "
".

Section Sending.

Context {S : Type}.

(** [func (f *Finch) SendMessage(message tgbotapi.MessageConfig) error]. *)
Definition SendMessage (p : Process S) (message : MessageConfig) (w : World)
  : World * option error :=
  let message :=
    mkMessageConfig (msg_ChatID message)
      (replace_atat ("@" +:+ API_Self_UserName (bot p)) (msg_Text message))
      (msg_ReplyToMessageID message) (msg_ReplyMarkup message) in
  let '(w, err) := API_Send w message in
  let w := match err with
           | Some e => if sentryEnabled p then raven_CaptureError w e else w
           | None => w
           end in
  (w, err).

(** ** commands/help/help.go *)

(** [Help.BotfatherString] is declared in a part of commands.go that is
    not available; the listing for the bot father takes it as it is. *)
Variable BotfatherString : Help.t -> string.

(** [func (cmd *helpCommand) Help() finch.Help] (without the [Botfather]
    field, which only [BotfatherString] reads). *)
Definition helpCommand_Help : Help.t :=
  Help.mk "Help" "Displays loaded commands and their help text" "/help@@".

(** The loop of the first branch of [Execute]: [k] is the index of the
    command and [n] is [len(cmd.Finch.Commands)]. *)
Fixpoint botfather_loop (b : string) (k n : nat) (cs : list (CommandState S)) : string :=
  match cs with
  | [] => b
  | command :: cs =>
      let help := BotfatherString (Help (Command_ command)) in
      let b := if decide (help = "") then b
               else let b := b +:+ help in
                    if decide ((k + 1)%nat = n) then b else b +:+ "
" in
      botfather_loop b (Datatypes.S k) n cs
  end.

(** The loop of the second branch of [Execute]. *)
Fixpoint listing_loop (b : string) (cs : list (CommandState S)) : string :=
  match cs with
  | [] => b
  | command :: cs =>
      let help := Help (Command_ command) in
      if decide (Help.Description help = "") then listing_loop b cs
      else listing_loop (b +:+ Help.String help true) cs
  end.

(** The heading of the listing. *)
Definition listing_heading : string := "Loaded commands:

".

(** The entry of a command in the listing: nothing for a command
    without a description. *)
Definition help_entry (cmd : Command S) : string :=
  if decide (Help.Description (Help cmd) = "") then ""
  else Help.String (Help cmd) true.

(** The entries of the commands of a list, one after the other. *)
Definition listing (cmds : list (Command S)) : string :=
  foldr (fun cmd rest => help_entry cmd +:+ rest) "" cmds.

(** The entries as they are sent, after [SendMessage] has put [new] for
    every ["@@"]. *)
Definition sent_listing (new : string) (cmds : list (Command S)) : string :=
  foldr (fun cmd rest => replace_atat new (help_entry cmd) +:+ rest) "" cmds.

(** The string [e] is in [text] at the offset [off]. *)
Definition occurs_at (off : nat) (e text : string) : Prop :=
  String.substring off (String.length e) text = e.

(** The text [Execute] writes into its buffer. *)
Definition helpCommand_text (f : Finch S) (m : Message) : string :=
  let b := "" in
  if decide (CommandArguments m = "botfather")
  then botfather_loop b 0 (length (Commands f)) (Commands f)
  else
    let b := b +:+ "Loaded commands:

" in
    listing_loop b (Commands f).

(** [func (cmd *helpCommand) Execute(update tgbotapi.Update) error]. *)
Definition helpCommand_Execute (update : Update) (p : Process S) (w : World)
  : Outcome (World * option error) :=
  match Message_ update with
  | None => Panicked "invalid memory address or nil pointer dereference"
  | Some m =>
      let b := helpCommand_text (bot p) m in
      let msg := tgbotapi_NewMessage (Chat_ID m) b in
      let msg := mkMessageConfig (msg_ChatID msg) (msg_Text msg) (MessageID m)
                                 ModeMarkdown in
      Returned (SendMessage p msg w)
  end.

(** ** The registry *)

(** Modelled from the spec: [RegisterCommand] is declared in a part of
    commands.go that is not available. Registering appends a fresh
    [CommandState] that wraps the command to the registry. *)
Definition RegisterCommand (cmd : Command S) (commands : list (CommandState S))
  : list (CommandState S) :=
  commands ++ [mkCommandState cmd false].

(** The registry after the commands of [cmds] have registered, in this
    order, on top of [commands]. *)
Definition register_all (cmds : list (Command S)) (commands : list (CommandState S))
  : list (CommandState S) :=
  foldl (fun commands cmd => RegisterCommand cmd commands) commands cmds.

End Sending.

(** ** The router *)

(** What the router does with the commands, as a trace. The number is the
    position of the command in the registry. *)
Inductive Event : Type :=
| CallShouldExecute (i : nat)
| CallExecute (i : nat)
| CallExecuteKeyboard (i : nat)
| LogError (i : nat) (err : error).

Section Router.

Context {S : Type}.

(** Modelled from the spec: an update is usable when it carries a message
    and the message has a sender (the text and the identifiers of the chat
    and of the message are fields of every message). *)
Definition usable (incoming : Update) : bool :=
  match Message_ incoming with
  | Some m => bool_decide (is_Some (From m))
  | None => false
  end.

Definition log (i : nat) (err : option error) : list Event :=
  match err with
  | Some e => [LogError i e]
  | None => []
  end.

(** Modelled from the spec: what the router does with one
    [CommandState], the [i]-th of the registry. When the command waits for
    a reply its [ExecuteKeyboard] runs and [ShouldExecute] is not asked;
    otherwise [ShouldExecute] is asked and [Execute] runs when it says so.
    The error a handler returns is logged. *)
Definition route_one (i : nat) (s : CommandState S) (incoming : Update) (st : S)
  : CommandState S * S * list Event :=
  if WaitingForReply s then
    let '((waiting, st), err) :=
      ExecuteKeyboard (Command_ s) incoming (WaitingForReply s, st) in
    (mkCommandState (Command_ s) waiting, st, CallExecuteKeyboard i :: log i err)
  else if ShouldExecute (Command_ s) incoming then
    let '((waiting, st), err) :=
      Execute (Command_ s) incoming (WaitingForReply s, st) in
    (mkCommandState (Command_ s) waiting, st,
     CallShouldExecute i :: CallExecute i :: log i err)
  else (s, st, [CallShouldExecute i]).

(** Modelled from the spec: the walk over the registry, in its order,
    from position [i] on; no error ends it. *)
Fixpoint route_from (i : nat) (commands : list (CommandState S))
    (incoming : Update) (st : S) : list (CommandState S) * S * list Event :=
  match commands with
  | [] => ([], st, [])
  | s :: commands =>
      let '(s, st, evs1) := route_one i s incoming st in
      let '(commands, st, evs2) := route_from (Datatypes.S i) commands incoming st in
      (s :: commands, st, evs1 ++ evs2)
  end.

(** Modelled from the spec: [commandRouter] is declared in a part of
    commands.go that is not available. An update without a usable
    message is dropped; for any other the registry is walked. *)
Definition commandRouter (commands : list (CommandState S)) (incoming : Update) (st : S)
  : list (CommandState S) * S * list Event :=
  if usable incoming then route_from 0 commands incoming st
  else (commands, st, []).

(** The router runs on the updates of a list, one after the other. *)
Fixpoint route_all (commands : list (CommandState S)) (updates : list Update) (st : S)
  : list (CommandState S) * S * list Event :=
  match updates with
  | [] => (commands, st, [])
  | incoming :: updates =>
      let '(commands, st, evs1) := commandRouter commands incoming st in
      let '(commands, st, evs2) := route_all commands updates st in
      (commands, st, evs1 ++ evs2)
  end.

(** The trace of the router for one update. *)
Definition trace (commands : list (CommandState S)) (incoming : Update) (st : S)
  : list Event :=
  snd (commandRouter commands incoming st).

(** The events of a trace that are calls of the [i]-th command. *)
Definition is_call_of (i : nat) (e : Event) : bool :=
  match e with
  | CallShouldExecute j | CallExecute j | CallExecuteKeyboard j => bool_decide (i = j)
  | LogError _ _ => false
  end.

Definition calls_of (i : nat) (evs : list Event) : list Event :=
  List.filter (is_call_of i) evs.

(** The commands whose [Execute] was called, in the order of the calls. *)
Definition executed (evs : list Event) : list nat :=
  omap (fun e => match e with CallExecute i => Some i | _ => None end) evs.

(** The positions, from [i] on and in the order of the registry, of the
    commands that do not wait for a reply and whose [ShouldExecute] is
    true of the update. *)
Fixpoint matching (i : nat) (commands : list (CommandState S)) (incoming : Update)
  : list nat :=
  match commands with
  | [] => []
  | s :: commands =>
      if negb (WaitingForReply s) && ShouldExecute (Command_ s) incoming
      then i :: matching (Datatypes.S i) commands incoming
      else matching (Datatypes.S i) commands incoming
  end.

(** The calls the rule of the router has for the [i]-th command, whose
    state is [s], and a usable update. *)
Definition expected_calls (i : nat) (s : CommandState S) (incoming : Update)
  : list Event :=
  if WaitingForReply s then [CallExecuteKeyboard i]
  else if ShouldExecute (Command_ s) incoming
       then [CallShouldExecute i; CallExecute i]
       else [CallShouldExecute i].

(** How often [Execute] of the [i]-th command was called. *)
Definition times_executed (i : nat) (evs : list Event) : nat :=
  length (List.filter (fun j => bool_decide (j = i)) (executed evs)).

End Router.

(** ** More of finch.go and of the stats package *)

(** The text has an occurrence of ["@@"]. *)
Fixpoint has_atat (s : string) : bool :=
  match s with
  | EmptyString => false
  | String c rest =>
      match rest with
      | String c' _ => (Ascii.eqb c "@" && Ascii.eqb c' "@") || has_atat rest
      | EmptyString => false
      end
  end.

(** The text has an ["@"]. *)
Fixpoint has_at (s : string) : bool :=
  match s with
  | EmptyString => false
  | String c rest => Ascii.eqb c "@" || has_at rest
  end.

(** The text begins with an ["@"]. *)
Definition starts_with_at (s : string) : bool :=
  match s with
  | EmptyString => false
  | String c _ => Ascii.eqb c "@"
  end.

(** [strconv.Itoa]: the decimal digits, after a minus sign for a
    negative number. *)
Definition strconv_Itoa (n : Z) : string := pretty n.

Section MoreFinch.

Context {S : Type}.

(** [func NewFinchWithClient(token string, client *http.Client, debug bool) *Finch]:
    [tgbotapi.NewBotAPIWithClient] asks the service who the bot is, and
    its error is a panic; [commands] is the registry of the package. The
    error of [LoadConfig] is dropped. *)
Definition NewFinchWithClient (self : string) (commands : list (CommandState S))
    (w : World) : Outcome (Finch S) :=
  if api_online w then
    let '(c, _) := LoadConfig w in
    Returned (mkFinch self c commands)
  else Panicked "NewBotAPIWithClient".

(** The first lines of [func (f *Finch) Start()], up to the call of
    [commandInit]: with a ["sentry_dsn"] in the configuration the error
    tracker is switched on and given the value, which has to be a string.
    The result has the string given to [raven.SetDSN]. *)
Definition Start_sentry (p : Process S) : Outcome (Process S * option string) :=
  match entries (Config_ (bot p)) !! "sentry_dsn" with
  | Some v =>
      let p := mkProcess (bot p) true (heap p) (userMessages p) in
      match v with
      | VString dsn => Returned (p, Some dsn)
      | _ => Panicked "interface conversion: interface {} is not string"
      end
  | None => Returned (p, None)
  end.

(** [func (f *Finch) QuickReply(message tgbotapi.Message, text string) error]. *)
Definition QuickReply (p : Process S) (message : Message) (text : string) (w : World)
  : World * option error :=
  let msg := tgbotapi_NewMessage (Chat_ID message) text in
  let msg := mkMessageConfig (msg_ChatID msg) (msg_Text msg) (MessageID message)
                             (msg_ReplyMarkup msg) in
  SendMessage p msg w.

(** *** commands/stats/stats.go: the command that shows the counts *)

(** The buffer of [func (cmd *infoCommand) Execute]. Go visits the entries
    of a map in an order it does not fix; [visited] has the entries of
    [userMessages] in the order of this run. *)
Definition infoCommand_text (visited : list (string * Z)) : string :=
  let b := "" in
  let b := b +:+ "Users seen

" in
  foldl (fun b '(userName, count) =>
           let b := b +:+ userName in
           let b := b +:+ " - " in
           let b := b +:+ strconv_Itoa count in
           b +:+ "
") b visited.

(** [func (cmd *infoCommand) Execute(update tgbotapi.Update) error]. *)
Definition infoCommand_Execute (update : Update) (visited : list (string * Z))
    (p : Process S) (w : World) : Outcome (World * option error) :=
  let b := infoCommand_text visited in
  match Message_ update with
  | None => Panicked "invalid memory address or nil pointer dereference"
  | Some m =>
      let msg := tgbotapi_NewMessage (Chat_ID m) b in
      let msg := mkMessageConfig (msg_ChatID msg) (msg_Text msg) (MessageID m)
                                 (msg_ReplyMarkup msg) in
      Returned (SendMessage p msg w)
  end.

(** One line of the counts. *)
Definition count_line (userName : string) (count : Z) : string :=
  userName +:+ " - " +:+ strconv_Itoa count +:+ newline.

(** The lines of the counts [visited]. *)
Definition count_lines (visited : list (string * Z)) : string :=
  foldr (fun '(userName, count) rest => count_line userName count +:+ rest) "" visited.


(** The commands that have a description. *)
Definition described_only (cs : list (CommandState S)) : list (CommandState S) :=
  List.filter (fun command =>
                 negb (bool_decide (Help.Description (Help (Command_ command)) = ""))) cs.

End MoreFinch.

(** ** Sample inputs *)

(** A world without any file and without [FINCH_CONFIG]. *)
Definition empty_world : World := mkWorld ∅ ∅ true [] true [].

(** A world whose [config.json] is not a JSON text. *)
Definition corrupt_world : World :=
  mkWorld ∅ {[ "config.json" := mkFile (Malformed "{stats:") true true ]} true [] true [].

(** A world whose [config.json] exists and cannot be written. *)
Definition read_only_world : World :=
  mkWorld ∅ {[ "config.json" := mkFile (Document (JObject ∅)) true false ]}
          true [] true [].

(** A process with an empty configuration, no command, and the
    [userMessages] of the stats package as its [init] leaves it. *)
Definition fresh_process : Process unit :=
  mkProcess (mkFinch "finchbot" (MapConfig ∅) []) false {[ 0%nat := ∅ ]} (Some 0%nat).

(** A command that embeds [CommandBase] and has its own [Help]. *)
Definition described (h : Help.t) : Command unit :=
  let base : Command unit := CommandBase in
  mkCommand h (Init base) (ShouldExecute base) (Execute base) (ExecuteKeyboard base).

(** The registry of a bot that imports the help and the stats packages. *)
Definition sample_bot : Finch unit :=
  mkFinch "finchbot" (MapConfig ∅)
    (register_all [described helpCommand_Help; described infoCollector_Help;
                   described infoCommand_Help] []).

Definition help_request : Message := mkMessage 1 (Some (mkUser "alice" "" "")) 7 "/help" "".

(** An update without a message. *)
Definition empty_update : Update := mkUpdate 0 None.

(** A command that answers the message after a question: [Execute] runs
    on ["/ask"] and then waits, [ExecuteKeyboard] takes the reply and
    stops waiting. The state counts the replies. *)
Definition asking : Command nat :=
  mkCommand (Help.mk "Ask" "Asks a question" "/ask")
    (fun st => (st, None))
    (fun u => match Message_ u with
              | Some m => bool_decide (Text m = "/ask")
              | None => false
              end)
    (fun _ '(_, st) => ((true, st), None))
    (fun _ '(_, st) => ((false, Datatypes.S st), None)).

(** A command that runs on every update and counts in the state. *)
Definition counting : Command nat :=
  mkCommand (Help.mk "Count" "" "") (fun st => (st, None)) (fun _ => true)
    (fun _ '(waiting, st) => ((waiting, Datatypes.S st), None))
    (fun _ s => (s, None)).

(** A registry: a command that waits for a reply, the counter, and the
    same asking command, not waiting. *)
Definition sample_registry : list (CommandState nat) :=
  [mkCommandState asking true; mkCommandState counting false;
   mkCommandState asking false].

Definition ask_update : Update :=
  mkUpdate 0 (Some (mkMessage 1 (Some (mkUser "alice" "" "")) 7 "/ask" "")).

(** Three updates from alice and two from bob. *)
Definition message_from (name : string) : Update :=
  mkUpdate 0 (Some (mkMessage 1 (Some (mkUser name "" "")) 7 "hello" "")).

Definition alice_bob_updates : list Update :=
  [message_from "alice"; message_from "bob"; message_from "alice";
   message_from "alice"; message_from "bob"].

(** A process that has counted three messages of alice. *)
Definition counting_process : Process unit :=
  mkProcess (mkFinch "finchbot" (MapConfig ∅) []) false
            {[ 0%nat := {[ "alice" := 3 ]} ]} (Some 0%nat).

(** A process whose configuration has a string under ["stats"], and one
    that has an object with a count that is not a number. *)
Definition string_stats_process : Process unit :=
  mkProcess (mkFinch "finchbot" (MapConfig {[ "stats" := VString "reset" ]}) [])
            false {[ 0%nat := ∅ ]} (Some 0%nat).

Definition string_count_process : Process unit :=
  mkProcess (mkFinch "finchbot"
               (MapConfig {[ "stats" := VMap {[ "alice" := VString "3" ]} ]}) [])
            false {[ 0%nat := ∅ ]} (Some 0%nat).

(** A process whose configuration was loaded from a file with counts. *)
Definition restarted_process : Process unit :=
  mkProcess (mkFinch "finchbot"
               (MapConfig {[ "stats" := VMap {[ "alice" := VFloat64 (F64 3 0);
                                               "bob" := VFloat64 (F64 2 0) ]} ]}) [])
            false {[ 0%nat := ∅ ]} (Some 0%nat).

(** A process whose bot has the registry of [sample_bot]. *)
Definition help_process : Process unit :=
  mkProcess sample_bot false {[ 0%nat := ∅ ]} (Some 0%nat).

Definition help_update : Update := mkUpdate 0 (Some help_request).




(** A world whose [config.json] has a number for the address of the
    error tracker. *)
Definition numeric_dsn_world : World :=
  mkWorld ∅ {[ "config.json" :=
                 mkFile (Document (JObject {[ "sentry_dsn" := JNumber (F64 1 0) ]})) true true ]}
          true [] true [].

Definition stats_update : Update :=
  mkUpdate 0 (Some (mkMessage 9 (Some (mkUser "carol" "" "")) 7 "/stats" "")).

(** A process with a function value in its configuration. *)
Definition hooked_process : Process unit :=
  mkProcess (mkFinch "finchbot" (MapConfig {[ "hook" := VFunc ]}) [])
            true {[ 0%nat := ∅ ]} (Some 0%nat).

(** A world whose [config.json] holds [null]. *)
Definition null_world : World :=
  mkWorld ∅ {[ "config.json" := mkFile (Document JNull) true true ]} true [] true [].

(** ** Claims of the specification, in its words *)

Section SpecWords.

Context {S : Type}.

(** "Fails with an I/O error if the write cannot complete", an error
    "surfaced to the caller of set": the caller, who gets no result and
    has only the memory of the process, can tell from it what [Save]
    returned. *)
Definition Set_surfaces_save_error : Prop :=
  exists report : Process S -> option error,
  forall key value p w p' w',
    Set_ key value p w = Returned (p', w') ->
    report p' = snd (Save (sentryEnabled p') (heap p') (Config_ (bot p')) w).


(** "For every update and every registered command state s": "if
    s.waitingForReply is true it invokes runAsReply". *)
Definition router_replies_on_every_update : Prop :=
  forall (commands : list (CommandState S)) incoming st i s,
    commands !! i = Some s ->
    WaitingForReply s = true ->
    CallExecuteKeyboard i ∈ trace commands incoming st.

(** The collector's [Init] "substitutes an empty default" and is "never
    a fatal error", whatever is stored under its key. *)
Definition Init_never_fatal : Prop :=
  forall p : Process S, returns (infoCollector_Init p) = true.

End SpecWords.

(** * Properties *)

(** ** The definitions on small inputs *)

Example wrap_int_overflow : wrap_int (int_max + 1) = int_min.
Proof. reflexivity. Qed.

Example float64_of_int_exact : float64_of_int 3 = F64 3 0.
Proof. reflexivity. Qed.

Example float64_of_int_rounds : float64_of_int (2 ^ 53 + 1) = F64 (2 ^ 52) 1.
Proof. reflexivity. Qed.

Example int_of_float64_truncates :
  int_of_float64 (F64 7 (-1)) = 3 /\ int_of_float64 (F64 (-7) (-1)) = -3.
Proof. split; reflexivity. Qed.

Example User_String_names :
  User_String (mkUser "alice" "Alice" "A") = "alice"
  /\ User_String (mkUser "" "Alice" "A") = "Alice A"
  /\ User_String (mkUser "" "Alice" "") = "Alice".
Proof. repeat split. Qed.

Example Help_String_full :
  Help.String helpCommand_Help true
    = "Help
Displays loaded commands and their help text
Example: /help@@

".
Proof. reflexivity. Qed.

Example Help_String_short :
  Help.String infoCommand_Help false = "Stats - Displays some statistics

".
Proof. reflexivity. Qed.

Example replace_atat_all :
  replace_atat "@finchbot" "/help@@ or /stats@@@" = "/help@finchbot or /stats@finchbot@".
Proof. reflexivity. Qed.

Example json_Unmarshal_object :
  json_Unmarshal (Document (JObject {[ "stats" := JObject {[ "alice" := JNumber (F64 3 0) ]} ]}))
                 NilConfig
    = (MapConfig {[ "stats" := VMap {[ "alice" := VFloat64 (F64 3 0) ]} ]}, None).
Proof. vm_compute. reflexivity. Qed.

(** ** Loading the configuration *)


(** C5. When the configuration file cannot be read (it does not exist, or
    it cannot be opened), [LoadConfig] returns an empty mapping, which is
    not the nil map, and the nil error. *)
Theorem LoadConfig_missing_file (w : World) (err : error) :
  ioutil_ReadFile w (configFileName w) = inr err ->
  LoadConfig w = (MapConfig ∅, None).
Proof.
  intros Hread. unfold LoadConfig. rewrite Hread. reflexivity.
Qed.

Lemma LoadConfig_missing_file_witness :
  ioutil_ReadFile empty_world (configFileName empty_world)
    = inr (PathError "open" "config.json")
  /\ LoadConfig empty_world = (MapConfig ∅, None).
Proof.
  split; [reflexivity|].
  apply (LoadConfig_missing_file empty_world (PathError "open" "config.json")).
  reflexivity.
Defined.



(** ** Setting a key *)

Section SetProperties.

Context {S : Type}.
Implicit Types (p : Process S) (w : World) (key : string) (value : GoValue).

Lemma Set_returned key value p w m :
  Config_ (bot p) = MapConfig m ->
  Set_ key value p w =
    Returned (set_Config (MapConfig (<[key := value]> m)) p,
              fst (Save (sentryEnabled p) (heap p) (MapConfig (<[key := value]> m)) w)).
Proof.
  intros Hc. unfold Set_. rewrite Hc. cbn.
  destruct (Save _ _ _ w) as [w' e]. reflexivity.
Qed.

Lemma Get_set_Config key value p m :
  Get (set_Config (MapConfig (<[key := value]> m)) p) key = value.
Proof. unfold Get, index. cbn. by rewrite lookup_insert_eq. Qed.

(** C3, as amended. [Set] first puts the value into the mapping in
    memory, then saves the whole mapping: the encoding of all its entries
    replaces the content of the file. [Set] has no result: when the write
    fails, [Save] returns the error of [ioutil.WriteFile], and [Set]
    returns all the same, with the value in the mapping in memory. *)
Theorem Set_mutates_then_saves key value p w m :
  Config_ (bot p) = MapConfig m ->
  let c := MapConfig (<[key := value]> m) in
  let saved := Save (sentryEnabled p) (heap p) c w in
  Set_ key value p w = Returned (set_Config c p, fst saved)
  /\ Get (set_Config c p) key = value
  /\ (forall b, json_Marshal (heap p) c = inl b ->
        saved = ioutil_WriteFile w (configFileName w) b)
  /\ (forall b err, json_Marshal (heap p) c = inl b -> snd saved = Some err ->
        err = PathError "open" (configFileName w)
        /\ returns (Set_ key value p w) = true).
Proof.
  intros Hc c saved. split; [|split; [|split]].
  - by apply Set_returned.
  - apply Get_set_Config.
  - intros b Hb. subst saved. unfold Save. by rewrite Hb.
  - intros b err Hb. rewrite (Set_returned _ _ _ _ _ Hc).
    subst saved. unfold Save. rewrite Hb.
    unfold ioutil_WriteFile.
    destruct (files w !! configFileName w) as [f|];
      [destruct (writable f)|destruct (can_create w)]; cbn; intros He;
      by simplify_eq.
Qed.

End SetProperties.

Lemma Set_mutates_then_saves_witness :
  Set_ "stats" (VInt 1) fresh_process read_only_world
    = Returned (set_Config (MapConfig {[ "stats" := VInt 1 ]}) fresh_process,
                read_only_world)
  /\ Get (set_Config (MapConfig {[ "stats" := VInt 1 ]}) fresh_process) "stats" = VInt 1.
Proof.
  destruct (Set_mutates_then_saves "stats" (VInt 1) fresh_process read_only_world ∅ eq_refl)
    as (Hset & Hget & _ & _).
  split; [exact Hset | exact Hget].
Defined.

(** C3, as stated, fails: the error of a failed write is not surfaced.
    On a file that cannot be written and on an empty directory [Set]
    leaves the same memory and gives its caller nothing else, while [Save]
    fails on the first and succeeds on the second. *)
Lemma Set_error_not_surfaced : ~ @Set_surfaces_save_error unit.
Proof.
  intros [report Hreport].
  pose proof (Hreport "stats" (VInt 1) fresh_process read_only_world _ _ eq_refl) as H1.
  pose proof (Hreport "stats" (VInt 1) fresh_process empty_world _ _ eq_refl) as H2.
  cbn in H1, H2. vm_compute in H1, H2. congruence.
Qed.

(** ** Values that survive the round trip *)

Section Decoded.

Implicit Types (v : GoValue) (h : Heap).





End Decoded.

(** ** The round trip through the file *)

Section RoundTrip.

Context {S : Type}.
Implicit Types (p : Process S) (w : World) (key : string) (value : GoValue).




End RoundTrip.



(** What is loaded at this input. *)
Example load_after_Set_stats :
  exists p' w',
    Set_ "stats" (VUserMessageCount (Some 0%nat)) counting_process empty_world
      = Returned (p', w')
    /\ Get p' "stats" = VUserMessageCount (Some 0%nat)
    /\ index (fst (LoadConfig w')) "stats" = VMap {[ "alice" := VFloat64 (F64 3 0) ]}.
Proof. eexists _, _. split; [reflexivity|]. split; vm_compute; reflexivity. Qed.

(** ** The collector: [Init] *)

Section InitProperties.

Context {S : Type}.
Implicit Types (p : Process S) (kvs : list (string * GoValue)).

Lemma deref_store h l key n :
  deref (<[l := <[key := n]> (default ∅ (h !! l))]> h) (Some l)
    = <[key := n]> (deref h (Some l)).
Proof. unfold deref. cbn. by rewrite lookup_insert_eq. Qed.

Lemma Init_range_floats kvs : forall p l,
  userMessages p = Some l ->
  Forall (fun kv => is_float64 kv.2 = true) kvs ->
  exists h,
    Init_range kvs p = Returned (set_heap h p)
    /\ deref h (Some l) = loaded (deref (heap p) (Some l)) kvs.
Proof.
  induction kvs as [|[user count] kvs IH]; intros p l Hl Hall.
  - exists (heap p). by destruct p.
  - inversion Hall as [|? ? Hf Hall']; subst. cbn in Hf.
    destruct count; try discriminate Hf.
    destruct (IH (set_heap (<[l := <[user := int_of_float64 x]> (default ∅ (heap p !! l))]> (heap p)) p) l Hl Hall')
      as (h & Hrun & Hd).
    exists h. split.
    + cbn [Init_range]. rewrite Hl. exact Hrun.
    + rewrite Hd. cbn [heap set_heap]. rewrite deref_store. reflexivity.
Qed.

Lemma Init_range_returns kvs : forall p,
  returns (Init_range kvs p) = true <->
  Forall (fun kv => is_float64 kv.2 = true) kvs
  /\ (kvs = [] \/ userMessages p <> None).
Proof.
  induction kvs as [|[user count] kvs IH]; intros p.
  - cbn. split; [intros _; split; [constructor | by left] | done].
  - cbn. destruct count; cbn;
      try (split; [discriminate | intros [Hall _]; by inversion Hall]).
    destruct (userMessages p) as [l|] eqn:Hl; cbn.
    + rewrite IH. cbn. rewrite Hl. split.
      * intros [Hall _]. split; [by constructor | by right].
      * intros [Hall _]. inversion Hall; subst. split; [done | by right].
    + split; [discriminate|]. intros [_ [?|?]]; done.
Qed.

Lemma loaded_lookup kvs : forall counts user,
  NoDup kvs.*1 ->
  loaded counts kvs !! user =
    match (list_to_map kvs : gmap string GoValue) !! user with
    | Some v => Some (count_of v)
    | None => counts !! user
    end.
Proof.
  induction kvs as [|[k v] kvs IH]; intros counts user Hnd; [done|].
  inversion Hnd as [|? ? Hk Hnd']; subst. cbn.
  rewrite IH by done.
  destruct (decide (k = user)) as [->|Hne].
  - rewrite lookup_insert_eq.
    rewrite (not_elem_of_list_to_map_1 _ _ Hk). by rewrite lookup_insert_eq.
  - rewrite !lookup_insert_ne by done. reflexivity.
Qed.

(** C4, as amended. When nothing, or [null], is stored under ["stats"],
    [Init] makes a new, empty map and returns the nil error. When a
    [map[string]interface{}] is stored whose values are all [float64],
    [Init] returns the nil error, with every stored count, converted to
    [int], in the map of the counts. For no other stored value [Init]
    returns: it returns exactly when the stored value is nil, or such a
    map (and the map of the counts is not nil, or there is no count to
    store). *)
Theorem infoCollector_Init_outcome p :
  (Get p "stats" = VNil ->
     exists p', infoCollector_Init p = Returned (p', None)
       /\ deref (heap p') (userMessages p') = ∅
       /\ userMessages p' <> None
       /\ Config_ (bot p') = Config_ (bot p))
  /\ (forall m l, Get p "stats" = VMap m -> userMessages p = Some l ->
        map_Forall (fun _ v => is_float64 v = true) m ->
        exists p', infoCollector_Init p = Returned (p', None)
          /\ userMessages p' = Some l
          /\ forall user,
               deref (heap p') (Some l) !! user =
                 match m !! user with
                 | Some v => Some (count_of v)
                 | None => deref (heap p) (Some l) !! user
                 end)
  /\ (returns (infoCollector_Init p) = true <->
        Get p "stats" = VNil
        \/ exists m, Get p "stats" = VMap m
             /\ map_Forall (fun _ v => is_float64 v = true) m
             /\ (m = ∅ \/ userMessages p <> None)).
Proof.
  split; [|split].
  - intros Hnil. unfold infoCollector_Init. rewrite Hnil. cbn.
    eexists. split; [reflexivity|]. cbn. repeat split; [|done].
    unfold deref. cbn. by rewrite lookup_insert_eq.
  - intros m l Hm Hl Hall. unfold infoCollector_Init. rewrite Hm.
    destruct (Init_range_floats (map_to_list m) p l Hl) as (h & Hrun & Hd).
    { apply Forall_forall. intros [k v] Hkv. by apply (Hall k), elem_of_map_to_list. }
    rewrite Hrun. exists (set_heap h p). split; [reflexivity|]. split; [exact Hl|].
    intros user. cbn [heap set_heap].
    rewrite Hd, loaded_lookup by apply NoDup_fst_map_to_list.
    by rewrite list_to_map_to_list.
  - unfold infoCollector_Init.
    destruct (Get p "stats") as [| | | | |m| | |] eqn:Hs; cbn;
      try (split; [discriminate | intros [?|(? & ? & _)]; discriminate]).
    + split; [by left | done].
    + assert (returns (p0 ← Init_range (map_to_list m) p; Returned (p0, None))
              = returns (Init_range (map_to_list m) p)) as ->
        by (destruct (Init_range (map_to_list m) p); done).
      rewrite Init_range_returns. split.
      * intros [Hall Hne]. right. exists m. split; [done|]. split.
        -- intros k v Hk. apply elem_of_map_to_list in Hk.
           by apply (proj1 (Forall_forall _ _) Hall (k, v)).
        -- destruct Hne as [Hne|Hne]; [left | by right].
           by apply map_to_list_empty_iff.
      * intros [?|(m' & [= <-] & Hall & Hne)]; [done|]. split.
        -- apply Forall_forall. intros [k v] Hkv.
           by apply (Hall k), elem_of_map_to_list.
        -- destruct Hne as [->|Hne]; [left | by right].
           by rewrite map_to_list_empty.
Qed.

End InitProperties.

Lemma infoCollector_Init_outcome_witness :
  (exists p', infoCollector_Init fresh_process = Returned (p', None)
     /\ deref (heap p') (userMessages p') = ∅)
  /\ (exists p', infoCollector_Init restarted_process = Returned (p', None)
        /\ deref (heap p') (Some 0%nat) !! "alice" = Some 3
        /\ deref (heap p') (Some 0%nat) !! "bob" = Some 2)
  /\ returns (infoCollector_Init string_stats_process) = false.
Proof.
  split; [|split].
  - destruct (infoCollector_Init_outcome fresh_process) as (Hnil & _ & _).
    destruct (Hnil eq_refl) as (p' & Hrun & Hd & _). by exists p'.
  - destruct (infoCollector_Init_outcome restarted_process) as (_ & Hmap & _).
    edestruct (Hmap {[ "alice" := VFloat64 (F64 3 0); "bob" := VFloat64 (F64 2 0) ]} 0%nat)
      as (p' & Hrun & _ & Hcounts); [reflexivity | reflexivity | |].
    + apply map_Forall_insert_2; [reflexivity|].
      apply map_Forall_singleton. reflexivity.
    + exists p'. split; [exact Hrun|].
      split; [exact (Hcounts "alice") | exact (Hcounts "bob")].
  - destruct (infoCollector_Init_outcome string_stats_process) as (_ & _ & Hiff).
    destruct (returns (infoCollector_Init string_stats_process)) eqn:Hr; [|done].
    destruct (proj1 Hiff eq_refl) as [Hnil|(m & Hm & _)]; [discriminate Hnil|].
    discriminate Hm.
Defined.

(** C4, as stated, fails: a stored value of a wrong type is not treated
    as a fresh start. With a string under ["stats"] the type assertion of
    [Init] panics. *)
Lemma Init_wrong_type_panics : ~ @Init_never_fatal unit.
Proof.
  intros Hsafe. specialize (Hsafe string_stats_process). discriminate Hsafe.
Qed.

(** The two wrong types of the claim: a value that is no object, and an
    object with a count that is no number. *)
Example Init_wrong_type_runs :
  infoCollector_Init string_stats_process
    = Panicked "interface conversion: interface {} is not map[string]interface {}"
  /\ infoCollector_Init string_count_process
    = Panicked "interface conversion: interface {} is not float64".
Proof. split; reflexivity. Qed.

(** ** The collector: counting *)

Section Counting.

Context {S : Type}.
Implicit Types (p : Process S) (w : World) (u : Update) (us : list Update).

Lemma wrap_int_small n : int_min <= n <= int_max -> wrap_int n = n.
Proof.
  unfold wrap_int, int_min, int_max. intros Hn.
  rewrite Z.mod_small; lia.
Qed.

Lemma usable_sender u : usable u = true -> exists key, sender u = Returned key.
Proof.
  unfold usable, sender. destruct (Message_ u) as [m|]; [|done].
  destruct (From m) as [usr|]; [by eexists|].
  intros H. apply bool_decide_eq_true in H. by destruct H.
Qed.

Lemma infoCollector_Execute_step u p w m l key :
  Config_ (bot p) = MapConfig m ->
  userMessages p = Some l ->
  sender u = Returned key ->
  exists p' w',
    infoCollector_Execute u p w = Returned (p', w', None)
    /\ Config_ (bot p') = MapConfig (<["stats" := VUserMessageCount (Some l)]> m)
    /\ userMessages p' = Some l
    /\ deref (heap p') (Some l) = bump (deref (heap p) (Some l)) key.
Proof.
  intros Hc Hl Hk. unfold infoCollector_Execute. rewrite Hk, Hl. cbn [mbind Outcome_bind].
  set (n := match deref (heap p) (Some l) !! key with
            | None => 1 | Some n => wrap_int (n + 1) end).
  assert (match deref (heap p) (Some l) !! key with
          | Some n0 => store (heap p) (Some l) key (wrap_int (n0 + 1))
          | None => store (heap p) (Some l) key 1
          end = Returned (<[l := <[key := n]> (default ∅ (heap p !! l))]> (heap p))) as ->.
  { subst n. by destruct (deref (heap p) (Some l) !! key). }
  cbn [mbind Outcome_bind].
  set (p1 := set_heap _ p).
  rewrite (Set_returned "stats" _ p1 w m) by exact Hc.
  cbn [mbind Outcome_bind].
  eexists _, _. split; [reflexivity|]. repeat split.
  - cbn. by rewrite Hl.
  - exact Hl.
  - cbn [heap set_Config set_heap p1]. by rewrite deref_store.
Qed.

Lemma run_collector_counts us : forall p w m l,
  Config_ (bot p) = MapConfig m ->
  userMessages p = Some l ->
  Forall (fun u => usable u = true) us ->
  exists p' w',
    run_collector us p w = Returned (p', w')
    /\ userMessages p' = Some l
    /\ deref (heap p') (Some l) = counts_after (deref (heap p) (Some l)) us
    /\ Get p' "stats" =
         match us with [] => Get p "stats" | _ => VUserMessageCount (Some l) end.
Proof.
  induction us as [|u us IH]; intros p w m l Hc Hl Hus.
  - by exists p, w.
  - inversion Hus as [|? ? Hu Hus']; subst.
    destruct (usable_sender u Hu) as [key Hk].
    destruct (infoCollector_Execute_step u p w m l key Hc Hl Hk)
      as (p1 & w1 & Hrun & Hc1 & Hl1 & Hd1).
    destruct (IH p1 w1 _ l Hc1 Hl1 Hus') as (p' & w' & Hrun' & Hl' & Hd' & Hg').
    exists p', w'. cbn [run_collector]. rewrite Hrun. cbn [mbind Outcome_bind].
    split; [exact Hrun'|]. split; [exact Hl'|]. split.
    + rewrite Hd', Hd1. cbn [counts_after foldl]. by rewrite Hk.
    + rewrite Hg'. destruct us; [|done].
      unfold Get, index. rewrite Hc1. cbn. by rewrite lookup_insert_eq.
Qed.

Lemma messages_from_cons name u us :
  messages_from name (u :: us)
    = (if sent_by name u then 1 else 0) + messages_from name us.
Proof.
  unfold messages_from. cbn [List.filter].
  destruct (sent_by name u); cbn [length]; lia.
Qed.

Lemma messages_from_nonneg name us : 0 <= messages_from name us.
Proof. unfold messages_from. lia. Qed.

Lemma counts_after_lookup us : forall (counts : UserMessageCount) name,
  Z.of_nat (length us) <= int_max ->
  (forall k n, counts !! k = Some n -> 0 < n /\ n + Z.of_nat (length us) <= int_max) ->
  counts_after counts us !! name =
    match counts !! name with
    | Some n => Some (n + messages_from name us)
    | None => if decide (messages_from name us = 0) then None
              else Some (messages_from name us)
    end.
Proof.
  induction us as [|u us IH]; intros counts name Hlen Hcounts.
  - cbn. destruct (counts !! name); [f_equal; unfold messages_from; cbn; lia | done].
  - rewrite messages_from_cons. cbn [counts_after foldl].
    change (foldl _ ?a us) with (counts_after a us).
    cbn [length] in Hlen, Hcounts. unfold sent_by.
    destruct (sender u) as [key|msg].
    + rewrite IH; [|lia|].
      * unfold bump. destruct (decide (key = name)) as [->|Hne].
        -- rewrite lookup_insert_eq, bool_decide_eq_true_2 by done.
           pose proof (messages_from_nonneg name us).
           destruct (counts !! name) as [n|] eqn:Hn.
           ++ destruct (Hcounts _ _ Hn). rewrite wrap_int_small by (unfold int_min; lia).
              f_equal. lia.
           ++ destruct (decide (1 + messages_from name us = 0)); [lia | done].
        -- rewrite lookup_insert_ne, bool_decide_eq_false_2 by done. done.
      * intros k n. unfold bump. destruct (decide (key = k)) as [->|Hne].
        -- rewrite lookup_insert_eq. intros [= <-].
           destruct (counts !! k) as [n|] eqn:Hn.
           ++ destruct (Hcounts _ _ Hn). rewrite wrap_int_small by (unfold int_min; lia).
              lia.
           ++ lia.
        -- rewrite lookup_insert_ne by done. intros Hn.
           destruct (Hcounts _ _ Hn). lia.
    + rewrite IH; [done | lia |]. intros k n Hn. destruct (Hcounts _ _ Hn). lia.
Qed.

(** C7. The collector starts fresh (nothing is stored under ["stats"]
    and its map of counts is empty) and processes a list of updates that
    all carry a usable message, fewer than [2 ^ 63] of them. Then every
    call of [Execute] returns, and the mapping stored in the
    configuration under ["stats"] has, for every sender, given by the
    string of its identity, the number of the updates from that sender,
    and nothing for a sender of no update. *)
Theorem collector_counts_messages us p w m l :
  Config_ (bot p) = MapConfig m ->
  Get p "stats" = VNil ->
  userMessages p = Some l ->
  deref (heap p) (Some l) = ∅ ->
  Forall (fun u => usable u = true) us ->
  Z.of_nat (length us) <= int_max ->
  exists p' w',
    run_collector us p w = Returned (p', w')
    /\ forall name,
         stored_counts p' !! name =
           if decide (messages_from name us = 0) then None
           else Some (messages_from name us).
Proof.
  intros Hc Hnil Hl Hempty Hus Hlen.
  destruct (run_collector_counts us p w m l Hc Hl Hus) as (p' & w' & Hrun & Hl' & Hd & Hg).
  exists p', w'. split; [exact Hrun|]. intros name.
  unfold stored_counts. rewrite Hg. destruct us as [|u us].
  - rewrite Hnil. by rewrite lookup_empty.
  - rewrite Hd, Hempty, counts_after_lookup; [by rewrite lookup_empty | done |].
    intros k n. by rewrite lookup_empty.
Qed.

End Counting.

Lemma collector_counts_messages_witness :
  exists p' w',
    run_collector alice_bob_updates fresh_process empty_world = Returned (p', w')
    /\ stored_counts p' = {[ "alice" := 3; "bob" := 2 ]}.
Proof.
  destruct (collector_counts_messages alice_bob_updates fresh_process empty_world ∅ 0%nat)
    as (p' & w' & Hrun & Hcounts);
    [reflexivity | reflexivity | reflexivity | reflexivity
    | repeat constructor | unfold int_max; cbn; lia |].
  exists p', w'. split; [exact Hrun|].
  apply map_eq. intros name. rewrite Hcounts.
  destruct (decide (name = "alice")) as [->|Ha]; [reflexivity|].
  destruct (decide (name = "bob")) as [->|Hb]; [reflexivity|].
  rewrite lookup_insert_ne, lookup_singleton_ne by done.
  unfold messages_from, alice_bob_updates, sent_by. cbn.
  rewrite !bool_decide_eq_false_2 by done. reflexivity.
Defined.

(** The run of the claim, evaluated: the counts in memory, and the
    document in the file after the last save. *)
Example alice_bob_run :
  exists p' w',
    run_collector alice_bob_updates fresh_process empty_world = Returned (p', w')
    /\ stored_counts p' = {[ "alice" := 3; "bob" := 2 ]}
    /\ data <$> files w' !! "config.json"
       = Some (Document (JObject {[ "stats" :=
                 JObject {[ "alice" := JNumber (F64 3 0); "bob" := JNumber (F64 2 0) ]} ]})).
Proof. eexists _, _. split; [reflexivity|]. split; vm_compute; reflexivity. Qed.

(** ** The help listing *)

Section Strings.

Lemma append_cons c (a b : string) : String c a +:+ b = String c (a +:+ b).
Proof. reflexivity. Qed.

Lemma append_nil_r (s : string) : s +:+ "" = s.
Proof. induction s as [|c s IH]; [done|]. by rewrite append_cons, IH. Qed.

Lemma append_assoc (a b c : string) : (a +:+ b) +:+ c = a +:+ b +:+ c.
Proof. induction a as [|x a IH]; [done|]. by rewrite !append_cons, IH. Qed.

Lemma length_append (a b : string) :
  String.length (a +:+ b) = (String.length a + String.length b)%nat.
Proof. induction a as [|x a IH]; [done|]. rewrite append_cons. cbn [String.length]. by rewrite IH. Qed.

Lemma substring_prefix (b c : string) :
  String.substring 0 (String.length b) (b +:+ c) = b.
Proof. induction b as [|x b IH]; [by destruct c|].
  rewrite append_cons. cbn [String.length String.substring]. by rewrite IH. Qed.

Lemma substring_append (a b c : string) :
  String.substring (String.length a) (String.length b) (a +:+ b +:+ c) = b.
Proof. induction a as [|x a IH]; [exact (substring_prefix b c)|].
  rewrite append_cons. cbn [String.length String.substring]. exact IH. Qed.

End Strings.

Section HelpListing.

Context {S : Type}.
Variable BotfatherString : Help.t -> string.
Implicit Types (cmd A B : Command S) (cmds : list (Command S))
               (commands : list (CommandState S)).

Lemma register_all_app cmds : forall commands,
  register_all cmds commands
    = commands ++ map (fun cmd => mkCommandState cmd false) cmds.
Proof.
  induction cmds as [|cmd cmds IH]; intros commands; cbn.
  - by rewrite app_nil_r.
  - unfold register_all in IH. rewrite IH. unfold RegisterCommand.
    by rewrite <- app_assoc.
Qed.

Lemma Command_register_all cmds :
  map Command_ (register_all cmds []) = cmds.
Proof.
  rewrite register_all_app. cbn. induction cmds as [|cmd cmds IH]; cbn; [done|].
  by rewrite IH.
Qed.

Lemma listing_loop_listing commands : forall b,
  listing_loop b commands = b +:+ listing (map Command_ commands).
Proof.
  induction commands as [|s commands IH]; intros b; cbn.
  - by rewrite append_nil_r.
  - unfold help_entry. destruct (decide _); cbn.
    + apply IH.
    + rewrite IH. apply append_assoc.
Qed.

Lemma listing_app cmds1 cmds2 :
  listing (cmds1 ++ cmds2) = listing cmds1 +:+ listing cmds2.
Proof.
  induction cmds1 as [|cmd cmds1 IH]; cbn; [done|].
  fold (listing (cmds1 ++ cmds2)). fold (listing cmds1).
  by rewrite IH, append_assoc.
Qed.

Lemma helpCommand_text_listing (f : Finch S) (m : Message) :
  CommandArguments m <> "botfather" ->
  helpCommand_text BotfatherString f m
    = listing_heading +:+ listing (map Command_ (Commands f)).
Proof.
  intros Hargs. unfold helpCommand_text.
  destruct (decide _); [done|]. apply listing_loop_listing.
Qed.

(** C9. The commands register in the order [before], [A], [between],
    [B], [after], and the help command is asked for its listing (not for
    the one for the bot father). The text is the heading followed by the
    entries of the commands in this order, a command without a
    description having no entry: the entry of [A] is in the text at an
    offset before the one of the entry of [B], and ends before it. *)
Theorem help_listing_in_registration_order
    (before between after : list (Command S)) A B (f : Finch S) (m : Message) :
  Commands f = register_all (before ++ A :: between ++ B :: after) [] ->
  CommandArguments m <> "botfather" ->
  let text := helpCommand_text BotfatherString f m in
  let at_A := String.length (listing_heading +:+ listing before) in
  let at_B := (at_A + String.length (help_entry A +:+ listing between))%nat in
  text = listing_heading +:+ listing before +:+ help_entry A +:+ listing between
           +:+ help_entry B +:+ listing after
  /\ occurs_at at_A (help_entry A) text
  /\ occurs_at at_B (help_entry B) text
  /\ (at_A + String.length (help_entry A) <= at_B)%nat.
Proof.
  intros Hreg Hargs text at_A at_B.
  assert (text = listing_heading +:+ listing before +:+ help_entry A +:+ listing between
            +:+ help_entry B +:+ listing after) as Htext.
  { subst text. rewrite helpCommand_text_listing by done.
    rewrite Hreg, Command_register_all, listing_app. cbn [listing foldr].
    fold (listing (between ++ B :: after)). rewrite listing_app. cbn [listing foldr].
    fold (listing after). reflexivity. }
  split; [exact Htext|]. split; [|split].
  - unfold occurs_at. rewrite Htext. subst at_A.
    rewrite <- (append_assoc _ (listing before)).
    exact (substring_append _ (help_entry A) _).
  - unfold occurs_at. rewrite Htext. subst at_B at_A.
    rewrite <- length_append.
    replace (listing_heading +:+ listing before +:+ help_entry A +:+ listing between
               +:+ help_entry B +:+ listing after)
      with (((listing_heading +:+ listing before) +:+ help_entry A +:+ listing between)
              +:+ help_entry B +:+ listing after)
      by (by rewrite !append_assoc).
    exact (substring_append _ (help_entry B) _).
  - subst at_B. rewrite length_append. lia.
Qed.

End HelpListing.

(** ** The help listing as it is sent *)

Section SentListing.

Context {S : Type}.
Variable BotfatherString : Help.t -> string.
Implicit Types (cmd : Command S) (cmds : list (Command S)) (new a b : string).

Lemma replace_atat_cons new c c' rest :
  replace_atat new (String c (String c' rest))
    = if Ascii.eqb c "@" && Ascii.eqb c' "@"
      then new +:+ replace_atat new rest
      else String c (replace_atat new (String c' rest)).
Proof. reflexivity. Qed.

(** A text that ends with a line break is replaced on its own: no ["@@"]
    lies across its end. *)
Lemma replace_atat_append_line new b : forall n a,
  (String.length a <= n)%nat ->
  replace_atat new ((a +:+ newline) +:+ b)
    = replace_atat new (a +:+ newline) +:+ replace_atat new b.
Proof.
  induction n as [|n IH]; intros a Hlen.
  - destruct a; [|cbn in Hlen; lia]. destruct b; reflexivity.
  - destruct a as [|c [|c' a]].
    + destruct b; reflexivity.
    + change ((String c "" +:+ newline) +:+ b) with (String c (String "010" b)).
      change (String c "" +:+ newline) with (String c (String "010" "")).
      rewrite !replace_atat_cons.
      replace (Ascii.eqb c "@" && Ascii.eqb "010" "@") with false
        by (by rewrite andb_false_r).
      rewrite append_cons. f_equal. destruct b; reflexivity.
    + change ((String c (String c' a) +:+ newline) +:+ b)
        with (String c (String c' ((a +:+ newline) +:+ b))).
      change (String c (String c' a) +:+ newline)
        with (String c (String c' (a +:+ newline))).
      rewrite !replace_atat_cons. cbn [String.length] in Hlen.
      destruct (Ascii.eqb c "@" && Ascii.eqb c' "@").
      * rewrite (IH a) by lia. by rewrite append_assoc.
      * rewrite append_cons. f_equal.
        exact (IH (String c' a) ltac:(cbn [String.length]; lia)).
Qed.

Lemma help_entry_line cmd :
  help_entry cmd = "" \/ exists a, help_entry cmd = a +:+ newline.
Proof.
  unfold help_entry. destruct (decide _); [by left|]. right.
  eexists. unfold Help.String. reflexivity.
Qed.

Lemma replace_atat_entry new cmd b :
  replace_atat new (help_entry cmd +:+ b)
    = replace_atat new (help_entry cmd) +:+ replace_atat new b.
Proof.
  destruct (help_entry_line cmd) as [->|[a ->]]; [done|].
  by apply (replace_atat_append_line new b (String.length a)).
Qed.

Lemma replace_atat_listing new cmds :
  replace_atat new (listing cmds) = sent_listing new cmds.
Proof.
  induction cmds as [|cmd cmds IH]; [done|].
  cbn [listing sent_listing foldr]. fold (listing cmds). fold (sent_listing new cmds).
  by rewrite replace_atat_entry, IH.
Qed.

(** X11. When the service takes the message, what [Execute] of the help
    command sends is the heading and then the entries of the commands in
    the order of the registry, each with the name of the bot for ["@@"]. *)
Lemma helpCommand_Execute_sends update (p : Process S) w m :
  Message_ update = Some m ->
  CommandArguments m <> "botfather" ->
  api_online w = true ->
  exists w' msg,
    helpCommand_Execute BotfatherString update p w = Returned (w', None)
    /\ outbox w' = outbox w ++ [msg]
    /\ msg_Text msg
       = listing_heading
           +:+ sent_listing ("@" +:+ API_Self_UserName (bot p))
                 (map Command_ (Commands (bot p))).
Proof.
  intros Hm Hargs Hon. unfold helpCommand_Execute, SendMessage, API_Send.
  rewrite Hm, Hon. eexists _, _. split; [reflexivity|]. split; [reflexivity|].
  cbn [msg_Text tgbotapi_NewMessage].
  rewrite helpCommand_text_listing by done.
  change listing_heading with (("Loaded commands:" +:+ newline) +:+ newline).
  rewrite (replace_atat_append_line _ _ _ _ (Nat.le_refl _)).
  by rewrite replace_atat_listing.
Qed.

End SentListing.

Lemma help_listing_in_registration_order_witness :
  helpCommand_text (fun _ => "") sample_bot help_request
    = "Loaded commands:

Help
Displays loaded commands and their help text
Example: /help@@

Stats
Displays some statistics
Example: /stats@@

"
  /\ occurs_at 18 (help_entry (described helpCommand_Help))
       (helpCommand_text (fun _ => "") sample_bot help_request)
  /\ occurs_at 86 (help_entry (described infoCommand_Help))
       (helpCommand_text (fun _ => "") sample_bot help_request).
Proof.
  destruct (help_listing_in_registration_order (fun _ => "")
              [] [described infoCollector_Help] []
              (described helpCommand_Help) (described infoCommand_Help)
              sample_bot help_request eq_refl)
    as (Htext & HA & HB & _); [discriminate|].
  split; [exact Htext|]. split; [exact HA | exact HB].
Defined.

(** ** The router *)

Section RouterProperties.

Context {S : Type}.
Implicit Types (s : CommandState S) (commands : list (CommandState S))
               (u : Update) (st : S) (i j k : nat) (evs : list Event).

Lemma calls_of_app j evs1 evs2 :
  calls_of j (evs1 ++ evs2) = calls_of j evs1 ++ calls_of j evs2.
Proof. unfold calls_of. induction evs1 as [|e evs1 IH]; cbn; [done|].
  destruct (is_call_of j e); cbn; by rewrite IH. Qed.

Lemma calls_of_log j i err : calls_of j (log i err) = [].
Proof. by destruct err. Qed.

Lemma executed_app evs1 evs2 :
  executed (evs1 ++ evs2) = executed evs1 ++ executed evs2.
Proof. apply omap_app. Qed.

Lemma executed_log i err : executed (log i err) = [].
Proof. by destruct err. Qed.

Lemma route_from_cons i s commands u st :
  snd (route_from i (s :: commands) u st)
    = snd (route_one i s u st)
        ++ snd (route_from (Datatypes.S i) commands u (snd (fst (route_one i s u st)))).
Proof.
  cbn [route_from]. destruct (route_one i s u st) as [[s' st'] evs1].
  destruct (route_from (Datatypes.S i) commands u st') as [[c' st''] evs2] eqn:H.
  cbn. by rewrite H.
Qed.

Lemma route_one_calls i s u st j :
  calls_of j (snd (route_one i s u st))
    = if decide (i = j) then expected_calls i s u else [].
Proof.
  unfold route_one, expected_calls.
  destruct (WaitingForReply s).
  - destruct (ExecuteKeyboard _ _ _) as [[wt st'] err]. cbn.
    rewrite (calls_of_log j i err : List.filter _ _ = []).
    case_bool_decide; case_decide; by simplify_eq.
  - destruct (ShouldExecute (Command_ s) u).
    + destruct (Execute _ _ _) as [[wt st'] err]. cbn.
      rewrite (calls_of_log j i err : List.filter _ _ = []).
      case_bool_decide; case_decide; by simplify_eq.
    + cbn. case_bool_decide; case_decide; by simplify_eq.
Qed.

Lemma route_one_executed i s u st :
  executed (snd (route_one i s u st))
    = if negb (WaitingForReply s) && ShouldExecute (Command_ s) u then [i] else [].
Proof.
  unfold route_one.
  destruct (WaitingForReply s).
  - destruct (ExecuteKeyboard _ _ _) as [[wt st'] err]. cbn. apply executed_log.
  - destruct (ShouldExecute (Command_ s) u); [|done].
    destruct (Execute _ _ _) as [[wt st'] err]. cbn. f_equal. apply executed_log.
Qed.

(** The calls of the command at position [k] of the part of the registry
    that is walked from position [i] on are those of the rule. *)
Lemma route_from_calls commands : forall i u st k s,
  commands !! k = Some s ->
  calls_of (i + k) (snd (route_from i commands u st)) = expected_calls (i + k) s u.
Proof.
  induction commands as [|s0 commands IH]; intros i u st k s Hk; [done|].
  rewrite route_from_cons, calls_of_app, route_one_calls.
  destruct k as [|k]; cbn in Hk.
  - simplify_eq. rewrite Nat.add_0_r. rewrite decide_True by done.
    assert (forall st', calls_of i (snd (route_from (Datatypes.S i) commands u st')) = [])
      as ->; [|by rewrite app_nil_r].
    clear. generalize (Datatypes.S i) (Nat.lt_succ_diag_r i).
    induction commands as [|s1 commands IH]; intros n Hn st'; [done|].
    rewrite route_from_cons, calls_of_app, route_one_calls.
    rewrite decide_False by lia. cbn. apply IH. lia.
  - rewrite decide_False by lia. cbn.
    replace (i + Datatypes.S k)%nat with (Datatypes.S i + k)%nat by lia.
    by apply IH.
Qed.

Lemma route_from_executed commands : forall i u st,
  executed (snd (route_from i commands u st)) = matching i commands u.
Proof.
  induction commands as [|s commands IH]; intros i u st; [done|].
  rewrite route_from_cons, executed_app, route_one_executed, IH. cbn [matching].
  by destruct (negb (WaitingForReply s) && ShouldExecute (Command_ s) u).
Qed.

Lemma matching_bounds commands : forall i u,
  Forall (fun j => (i <= j)%nat) (matching i commands u).
Proof.
  induction commands as [|s commands IH]; intros i u; cbn; [constructor|].
  assert (Forall (fun j => (i <= j)%nat) (matching (Datatypes.S i) commands u)) as Hrest.
  { eapply Forall_impl; [apply IH|]. cbn. lia. }
  destruct (negb (WaitingForReply s) && ShouldExecute (Command_ s) u);
    [constructor; [lia | done] | done].
Qed.

Lemma matching_sorted commands : forall i u,
  StronglySorted lt (matching i commands u).
Proof.
  induction commands as [|s commands IH]; intros i u; cbn; [constructor|].
  destruct (negb (WaitingForReply s) && ShouldExecute (Command_ s) u); [|apply IH].
  constructor; [apply IH|].
  eapply Forall_impl; [apply (matching_bounds commands (Datatypes.S i) u)|]. cbn. lia.
Qed.

Lemma matching_count commands : forall i u k s,
  commands !! k = Some s ->
  length (List.filter (fun j => bool_decide (j = (i + k)%nat)) (matching i commands u))
    = if negb (WaitingForReply s) && ShouldExecute (Command_ s) u then 1%nat else 0%nat.
Proof.
  induction commands as [|s0 commands IH]; intros i u k s Hk; [done|].
  cbn [matching]. destruct k as [|k]; cbn in Hk.
  - simplify_eq. rewrite Nat.add_0_r.
    assert (List.filter (fun j => bool_decide (j = i)) (matching (Datatypes.S i) commands u) = [])
      as Hnone.
    { pose proof (matching_bounds commands (Datatypes.S i) u) as Hb.
      induction Hb as [|j l Hj Hb IHb]; [done|]. cbn.
      rewrite bool_decide_eq_false_2 by lia. exact IHb. }
    destruct (negb (WaitingForReply s) && ShouldExecute (Command_ s) u); cbn.
    + rewrite bool_decide_eq_true_2 by done. cbn. by rewrite Hnone.
    + by rewrite Hnone.
  - replace (i + Datatypes.S k)%nat with (Datatypes.S i + k)%nat by lia.
    destruct (negb (WaitingForReply s0) && ShouldExecute (Command_ s0) u); cbn.
    + rewrite bool_decide_eq_false_2 by lia. exact (IH (Datatypes.S i) u k s Hk).
    + exact (IH (Datatypes.S i) u k s Hk).
Qed.

Lemma trace_usable commands u st :
  usable u = true -> trace commands u st = snd (route_from 0 commands u st).
Proof. intros Hu. unfold trace, commandRouter. by rewrite Hu. Qed.

Lemma trace_unusable commands u st :
  usable u = false -> trace commands u st = [].
Proof. intros Hu. unfold trace, commandRouter. by rewrite Hu. Qed.

Lemma no_message_unusable u : Message_ u = None -> usable u = false.
Proof. intros Hm. unfold usable. by rewrite Hm. Qed.

Lemma elem_of_calls_of i e evs :
  e ∈ evs -> is_call_of i e = true -> e ∈ calls_of i evs.
Proof.
  intros He Hc. apply list_elem_of_In, filter_In. split; [|done].
  by apply list_elem_of_In.
Qed.

(** C1, as amended. For an update that carries a usable message and
    every command of the registry, the calls of the router to the
    command are given by the flag the router finds in its state: when
    the command waits for a reply, the one call is [ExecuteKeyboard] and
    [ShouldExecute] is not asked; when it does not, [ShouldExecute] is
    asked, and [Execute] is called exactly when the answer is true. For
    every update, usable or not, [Execute] and [ExecuteKeyboard] of one
    command are never both called. *)
Theorem router_dispatch_rule commands u st i s :
  commands !! i = Some s ->
  (usable u = true ->
     calls_of i (trace commands u st) =
       if WaitingForReply s then [CallExecuteKeyboard i]
       else if ShouldExecute (Command_ s) u
            then [CallShouldExecute i; CallExecute i]
            else [CallShouldExecute i])
  /\ ~ (CallExecute i ∈ trace commands u st
        /\ CallExecuteKeyboard i ∈ trace commands u st).
Proof.
  intros Hi.
  assert (usable u = true ->
          calls_of i (trace commands u st) = expected_calls i s u) as Hcalls.
  { intros Hu. rewrite trace_usable by done.
    exact (route_from_calls commands 0%nat u st i s Hi). }
  split; [exact Hcalls|].
  intros [Hrun Hreply]. destruct (usable u) eqn:Hu.
  - apply (elem_of_calls_of i) in Hrun; [|by apply bool_decide_eq_true_2].
    apply (elem_of_calls_of i) in Hreply; [|by apply bool_decide_eq_true_2].
    rewrite Hcalls in Hrun, Hreply by done. unfold expected_calls in *.
    destruct (WaitingForReply s).
    + apply list_elem_of_singleton in Hrun. discriminate Hrun.
    + destruct (ShouldExecute (Command_ s) u).
      * apply elem_of_cons in Hreply as [Hreply|Hreply]; [discriminate Hreply|].
        apply list_elem_of_singleton in Hreply. discriminate Hreply.
      * apply list_elem_of_singleton in Hreply. discriminate Hreply.
  - rewrite trace_unusable in Hrun by done. by apply elem_of_nil in Hrun.
Qed.

(** C2. For an update that carries a usable message, the commands whose
    [Execute] the router calls are, in the order of the calls, the
    commands that do not wait for a reply and whose [ShouldExecute] is
    true of the update, in the order of the registry; [Execute] of each
    of them is called exactly once, whatever the other commands do. *)
Theorem router_runs_every_match commands u st :
  usable u = true ->
  executed (trace commands u st) = matching 0 commands u
  /\ StronglySorted lt (executed (trace commands u st))
  /\ forall i s,
       commands !! i = Some s ->
       WaitingForReply s = false ->
       ShouldExecute (Command_ s) u = true ->
       times_executed i (trace commands u st) = 1%nat.
Proof.
  intros Hu. rewrite trace_usable by done. rewrite route_from_executed.
  split; [done|]. split; [apply matching_sorted|].
  intros i s Hi Hw Hs. unfold times_executed. rewrite route_from_executed.
  pose proof (matching_count commands 0%nat u i s Hi) as Hcount.
  rewrite Hw, Hs in Hcount. exact Hcount.
Qed.

(** C8. An update without a usable message, so every update without a
    message, is dropped: the router calls no method of any command, logs
    no error, and leaves the registry and the state as they are. In a
    sequence of updates it could as well be absent. *)
Theorem router_drops_unusable commands u st :
  usable u = false ->
  commandRouter commands u st = (commands, st, [])
  /\ forall before after,
       route_all commands (before ++ u :: after) st
         = route_all commands (before ++ after) st.
Proof.
  intros Hu.
  assert (forall commands st, commandRouter commands u st = (commands, st, []))
    as Hdrop by (intros; unfold commandRouter; by rewrite Hu).
  split; [apply Hdrop|].
  intros before. revert commands st.
  induction before as [|u0 before IH]; intros commands st after.
  - cbn [app route_all]. rewrite Hdrop.
    by destruct (route_all commands after st) as [[c' st'] evs].
  - cbn [app route_all].
    destruct (commandRouter commands u0 st) as [[c1 st1] evs1].
    by rewrite IH.
Qed.

End RouterProperties.

Lemma router_dispatch_rule_witness :
  calls_of 0 (trace sample_registry ask_update 0%nat) = [CallExecuteKeyboard 0]
  /\ calls_of 2 (trace sample_registry ask_update 0%nat)
     = [CallShouldExecute 2; CallExecute 2]
  /\ ~ (CallExecute 0 ∈ trace sample_registry ask_update 0%nat
        /\ CallExecuteKeyboard 0 ∈ trace sample_registry ask_update 0%nat).
Proof.
  destruct (router_dispatch_rule sample_registry ask_update 0%nat 0%nat
              (mkCommandState asking true) eq_refl) as [Hfirst Hnever].
  destruct (router_dispatch_rule sample_registry ask_update 0%nat 2%nat
              (mkCommandState asking false) eq_refl) as [Hthird _].
  split; [exact (Hfirst eq_refl)|]. split; [exact (Hthird eq_refl) | exact Hnever].
Defined.

(** C1, as stated for every update, fails: an update without a message
    is dropped, and the [ExecuteKeyboard] of a command that waits for a
    reply is not called for it. *)
Lemma router_drops_before_reply : ~ @router_replies_on_every_update nat.
Proof.
  intros Hall.
  specialize (Hall sample_registry empty_update 0%nat 0%nat
                (mkCommandState asking true) eq_refl eq_refl).
  by apply elem_of_nil in Hall.
Qed.

Lemma router_runs_every_match_witness :
  executed (trace sample_registry ask_update 0%nat) = [1; 2]%nat
  /\ times_executed 1 (trace sample_registry ask_update 0%nat) = 1%nat
  /\ times_executed 2 (trace sample_registry ask_update 0%nat) = 1%nat.
Proof.
  destruct (router_runs_every_match sample_registry ask_update 0%nat eq_refl)
    as (Hexec & _ & Honce).
  split; [exact Hexec|]. split.
  - exact (Honce 1%nat (mkCommandState counting false) eq_refl eq_refl eq_refl).
  - exact (Honce 2%nat (mkCommandState asking false) eq_refl eq_refl eq_refl).
Defined.

(** The whole trace of the router at this update, and the registry and
    the state it leaves. *)
Example router_run :
  commandRouter sample_registry ask_update 0%nat
    = ([mkCommandState asking false; mkCommandState counting false;
        mkCommandState asking true],
       2%nat,
       [CallExecuteKeyboard 0; CallShouldExecute 1; CallExecute 1;
        CallShouldExecute 2; CallExecute 2]).
Proof. reflexivity. Qed.

Lemma router_drops_unusable_witness :
  usable empty_update = false
  /\ commandRouter sample_registry empty_update 0%nat = (sample_registry, 0%nat, [])
  /\ route_all sample_registry [ask_update; empty_update; ask_update] 0%nat
     = route_all sample_registry [ask_update; ask_update] 0%nat.
Proof.
  destruct (router_drops_unusable sample_registry empty_update 0%nat eq_refl)
    as [Hdrop Hseq].
  split; [reflexivity|]. split; [exact Hdrop|].
  exact (Hseq [ask_update] [ask_update]).
Defined.

(** ** A corrupt file, later *)

(** The nil map that [LoadConfig] returns for a corrupt file reads as an
    empty mapping, but it cannot be assigned to: the first [Set] panics. *)
Example Set_after_corrupt_file :
  let p : Process unit :=
    mkProcess (mkFinch "finchbot" (fst (LoadConfig corrupt_world)) [])
              false {[ 0%nat := ∅ ]} (Some 0%nat) in
  Get p "stats" = VNil
  /\ Set_ "stats" (VInt 1) p corrupt_world = Panicked "assignment to entry in nil map".
Proof. split; reflexivity. Qed.

(** ** A restart *)

(** After the run of the five updates the file holds the counts; a new
    process that loads the file finds them as [float64] in a
    [map[string]interface{}], and [Init] of the collector converts them
    back. *)
Example restart_recovers_counts :
  exists p' w' p'',
    run_collector alice_bob_updates fresh_process empty_world = Returned (p', w')
    /\ Get (set_Config (fst (LoadConfig w')) fresh_process) "stats"
       = VMap {[ "alice" := VFloat64 (F64 3 0); "bob" := VFloat64 (F64 2 0) ]}
    /\ infoCollector_Init (set_Config (fst (LoadConfig w')) fresh_process)
       = Returned (p'', None)
    /\ deref (heap p'') (userMessages p'') = {[ "alice" := 3; "bob" := 2 ]}.
Proof.
  eexists _, _, _. split; [reflexivity|]. split; [vm_compute; reflexivity|].
  split; [vm_compute; reflexivity|]. vm_compute. reflexivity.
Qed.

(** * Further properties of the code *)

(** ** Saving and loading *)

Section SaveLoad.

Context {S : Type}.
Implicit Types (p : Process S) (w : World) (key : string) (value : GoValue)
               (h : Heap) (c : Config).

Lemma toJSON_VMap_None h (m : gmap string GoValue) k v :
  m !! k = Some v -> toJSON h v = None -> toJSON h (VMap m) = None.
Proof.
  intros Hk Hv. cbn. rewrite bool_decide_eq_false_2; [done|].
  intros Hall. specialize (Hall k None). rewrite lookup_fmap, Hk in Hall. cbn in Hall.
  rewrite Hv in Hall. by destruct (Hall eq_refl).
Qed.




End SaveLoad.


(** ** What [Set] changes, and what it does not *)

Section SetFrame.

Context {S : Type}.
Implicit Types (p : Process S) (w : World) (key : string) (value : GoValue).

Lemma Set_Returned_inv key value p w p' w' :
  Set_ key value p w = Returned (p', w') ->
  exists m, Config_ (bot p) = MapConfig m
    /\ p' = set_Config (MapConfig (<[key := value]> m)) p
    /\ w' = fst (Save (sentryEnabled p) (heap p) (MapConfig (<[key := value]> m)) w).
Proof.
  destruct (Config_ (bot p)) as [|m] eqn:Hc.
  - unfold Set_. by rewrite Hc.
  - rewrite (Set_returned _ _ _ _ _ Hc). intros [= <- <-]. by exists m.
Qed.

Lemma Save_frame sentry h c w :
  let w' := fst (Save sentry h c w) in
  (forall name, name <> configFileName w -> files w' !! name = files w !! name)
  /\ environ w' = environ w /\ outbox w' = outbox w /\ api_online w' = api_online w.
Proof.
  unfold Save. destruct (json_Marshal h c) as [b|e].
  - unfold ioutil_WriteFile.
    destruct (files w !! configFileName w) as [f|];
      [destruct (writable f)|destruct (can_create w)]; cbn; repeat split;
      intros name Hn; by rewrite lookup_insert_ne.
  - by destruct sentry.
Qed.

(** X2. A [Set] that returns has changed one key of the mapping in
    memory and at most one file: [Get] finds the value under the key and
    what it found before under every other key; every file but the
    configuration file, the environment and the messages sent are as
    before, and so are the other variables of the process. *)
Theorem Set_changes_one_key_one_file key value p w p' w' :
  Set_ key value p w = Returned (p', w') ->
  Get p' key = value
  /\ (forall key', key' <> key -> Get p' key' = Get p key')
  /\ (forall name, name <> configFileName w -> files w' !! name = files w !! name)
  /\ environ w' = environ w
  /\ outbox w' = outbox w
  /\ heap p' = heap p
  /\ userMessages p' = userMessages p
  /\ sentryEnabled p' = sentryEnabled p.
Proof.
  intros Hset. apply Set_Returned_inv in Hset as (m & Hc & -> & ->).
  destruct (Save_frame (sentryEnabled p) (heap p) (MapConfig (<[key := value]> m)) w)
    as (Hfiles & Henv & Hout & _).
  split; [apply Get_set_Config|]. split.
  - intros key' Hne. unfold Get, index. cbn. rewrite Hc. cbn.
    by rewrite lookup_insert_ne.
  - repeat split; done.
Qed.

(** X3. A value that [json.Marshal] cannot encode, once it is in the
    mapping, keeps every [Set] from writing: [Set] still puts its value
    into the mapping in memory and returns, the files stay as they are,
    and the error goes to the error tracker when that is switched on, and
    nowhere when it is not. *)
Theorem unencodable_value_blocks_saves key value p w m k0 v0 :
  Config_ (bot p) = MapConfig m ->
  <[key := value]> m !! k0 = Some v0 ->
  toJSON (heap p) v0 = None ->
  exists w',
    Set_ key value p w = Returned (set_Config (MapConfig (<[key := value]> m)) p, w')
    /\ files w' = files w
    /\ captured w' = captured w ++ (if sentryEnabled p then [UnsupportedTypeError] else []).
Proof.
  intros Hc Hk Hv. rewrite (Set_returned _ _ _ _ _ Hc).
  eexists. split; [reflexivity|].
  unfold Save, json_Marshal. rewrite (toJSON_VMap_None _ _ _ _ Hk Hv).
  destruct (sentryEnabled p); cbn; [done|]. by rewrite app_nil_r.
Qed.

(** X4. A write that fails leaves no trace: when the mapping can be
    encoded and [ioutil.WriteFile] fails, [Set] returns with the value in
    memory, and nothing is reported to the error tracker, whether it is
    switched on or not. *)
Theorem failed_write_leaves_no_trace key value p w m b err :
  Config_ (bot p) = MapConfig m ->
  json_Marshal (heap p) (MapConfig (<[key := value]> m)) = inl b ->
  snd (ioutil_WriteFile w (configFileName w) b) = Some err ->
  exists w',
    Set_ key value p w = Returned (set_Config (MapConfig (<[key := value]> m)) p, w')
    /\ captured w' = captured w
    /\ outbox w' = outbox w.
Proof.
  intros Hc Hb Hw. rewrite (Set_returned _ _ _ _ _ Hc).
  eexists. split; [reflexivity|]. unfold Save. rewrite Hb.
  revert Hw. unfold ioutil_WriteFile.
  destruct (files w !! configFileName w) as [f|];
    [destruct (writable f)|destruct (can_create w)]; cbn; done.
Qed.

(** X5. A configuration file that can be read and does not hold a JSON
    object (it is no JSON text, it is [null], or it is a document of
    another kind) gives the new bot the nil map as its configuration:
    every [Get] finds nothing, and the first [Set] panics, and with it the
    [Execute] of the collector on the first usable update. *)
Theorem NewFinch_on_bad_document self commands w f b p :
  ioutil_ReadFile w (configFileName w) = inl f ->
  (forall m, f <> Document (JObject m)) ->
  NewFinchWithClient self commands w = Returned b ->
  bot p = b ->
  Config_ b = NilConfig
  /\ (forall key, Get p key = VNil)
  /\ (forall key value w0,
        Set_ key value p w0 = Panicked "assignment to entry in nil map")
  /\ (forall u w0, usable u = true -> userMessages p <> None ->
        infoCollector_Execute u p w0 = Panicked "assignment to entry in nil map").
Proof.
  intros Hread Hf Hnew Hp.
  assert (Config_ b = NilConfig) as Hnil.
  { unfold NewFinchWithClient in Hnew. destruct (api_online w); [|done].
    unfold LoadConfig in Hnew. rewrite Hread in Hnew.
    destruct f as [raw|[| | | | |m]]; try (by destruct (Hf m));
      cbn in Hnew; simplify_eq; by rewrite <- Hnew. }
  assert (forall (q : Process S) key value w0,
            Config_ (bot q) = NilConfig ->
            Set_ key value q w0 = Panicked "assignment to entry in nil map") as Hset.
  { intros q key value w0 Hq. unfold Set_. by rewrite Hq. }
  rewrite <- Hp in Hnil.
  split; [by rewrite <- Hp|]. split; [|split].
  - intros key. unfold Get. by rewrite Hnil.
  - intros key value w0. by apply Hset.
  - intros u w0 Hu Hl. destruct (usable_sender u Hu) as [k Hk].
    destruct (userMessages p) as [l|] eqn:Hl'; [|done].
    unfold infoCollector_Execute. rewrite Hk, Hl'. cbn [mbind Outcome_bind].
    destruct (deref (heap p) (Some l) !! k); cbn [store mbind Outcome_bind];
      by rewrite Hset.
Qed.

End SetFrame.

Lemma Set_changes_one_key_one_file_witness :
  exists p' w',
    Set_ "n" (VInt 3) fresh_process empty_world = Returned (p', w')
    /\ Get p' "n" = VInt 3
    /\ Get p' "stats" = Get fresh_process "stats"
    /\ files w' !! "other.json" = files empty_world !! "other.json".
Proof.
  eexists _, _. split; [reflexivity|].
  destruct (Set_changes_one_key_one_file (S := unit) "n" (VInt 3) fresh_process empty_world
              _ _ eq_refl) as (Hget & Hother & Hfiles & _).
  split; [exact Hget|]. split; [by apply Hother | by apply Hfiles].
Defined.

Lemma unencodable_value_blocks_saves_witness :
  exists w',
    Set_ "n" (VInt 3) hooked_process empty_world
      = Returned (set_Config (MapConfig (<["n" := VInt 3]> {[ "hook" := VFunc ]}))
                             hooked_process, w')
    /\ files w' = ∅
    /\ captured w' = [UnsupportedTypeError].
Proof.
  destruct (unencodable_value_blocks_saves (S := unit) "n" (VInt 3) hooked_process
              empty_world {[ "hook" := VFunc ]} "hook" VFunc eq_refl eq_refl eq_refl)
    as (w' & Hset & Hfiles & Hcap).
  exists w'. split; [exact Hset|]. split; [exact Hfiles | exact Hcap].
Defined.

Lemma failed_write_leaves_no_trace_witness :
  exists w',
    Set_ "hook" (VInt 3) hooked_process read_only_world
      = Returned (set_Config (MapConfig (<["hook" := VInt 3]> {[ "hook" := VFunc ]}))
                             hooked_process, w')
    /\ captured w' = [].
Proof.
  edestruct (failed_write_leaves_no_trace (S := unit) "hook" (VInt 3) hooked_process
               read_only_world {[ "hook" := VFunc ]})
    as (w' & Hset & Hcap & _); [reflexivity | reflexivity | reflexivity |].
  exists w'. split; [exact Hset | exact Hcap].
Defined.

Lemma NewFinch_on_bad_document_witness :
  exists b : Finch unit,
    NewFinchWithClient "finchbot" [] null_world = Returned b
    /\ Config_ b = NilConfig
    /\ Set_ "stats" (VInt 1) (mkProcess b false {[ 0%nat := ∅ ]} (Some 0%nat)) null_world
       = Panicked "assignment to entry in nil map".
Proof.
  exists (mkFinch "finchbot" NilConfig []). split; [reflexivity|].
  destruct (NewFinch_on_bad_document (S := unit) "finchbot" [] null_world (Document JNull)
              (mkFinch "finchbot" NilConfig [])
              (mkProcess (mkFinch "finchbot" NilConfig []) false {[ 0%nat := ∅ ]} (Some 0%nat)))
    as (Hnil & _ & Hset & _); [reflexivity | discriminate | reflexivity | reflexivity |].
  split; [exact Hnil | exact (Hset "stats" (VInt 1) null_world)].
Defined.

(** ** The collector, one update at a time and across a restart *)

Section CollectorSteps.

Context {S : Type}.
Implicit Types (p : Process S) (w : World) (u : Update).

Lemma infoCollector_Execute_stored u p w m l key p' w' e :
  Config_ (bot p) = MapConfig m ->
  userMessages p = Some l ->
  sender u = Returned key ->
  infoCollector_Execute u p w = Returned (p', w', e) ->
  e = None
  /\ stored_counts p' = bump (deref (heap p) (Some l)) key.
Proof.
  intros Hc Hl Hk Hrun.
  destruct (infoCollector_Execute_step u p w m l key Hc Hl Hk)
    as (p1 & w1 & Hrun1 & Hc1 & Hl1 & Hd1).
  rewrite Hrun1 in Hrun. simplify_eq. split; [done|].
  unfold stored_counts, Get, index. rewrite Hc1. cbn.
  rewrite lookup_insert_eq. cbn. exact Hd1.
Qed.

(** X6. On an update that has a sender, with a mapping and a map of
    counts that are not nil, [Execute] of the collector returns the nil
    error, also when the save fails. The count stored for the sender is 1
    when there was none and one more than before otherwise, except that
    after the largest [int] comes the smallest; the count of every other
    sender is as before. *)
Theorem infoCollector_Execute_counts_one u p w m l key :
  Config_ (bot p) = MapConfig m ->
  userMessages p = Some l ->
  sender u = Returned key ->
  let before := deref (heap p) (Some l) in
  exists p' w',
    infoCollector_Execute u p w = Returned (p', w', None)
    /\ (before !! key = None -> stored_counts p' !! key = Some 1)
    /\ (forall n, before !! key = Some n -> int_min <= n < int_max ->
          stored_counts p' !! key = Some (n + 1))
    /\ (before !! key = Some int_max -> stored_counts p' !! key = Some int_min)
    /\ (forall name, name <> key -> stored_counts p' !! name = before !! name).
Proof.
  intros Hc Hl Hk before.
  destruct (infoCollector_Execute_step u p w m l key Hc Hl Hk)
    as (p' & w' & Hrun & _).
  destruct (infoCollector_Execute_stored u p w m l key p' w' None Hc Hl Hk Hrun)
    as [_ Hstored].
  exists p', w'. split; [exact Hrun|]. rewrite Hstored. unfold bump. fold before.
  repeat split.
  - intros ->. by rewrite lookup_insert_eq.
  - intros n -> Hn. rewrite lookup_insert_eq, wrap_int_small; [done|].
    unfold int_min, int_max in *. lia.
  - intros ->. by rewrite lookup_insert_eq.
  - intros name Hne. by rewrite lookup_insert_ne.
Qed.



(** X8. [Init] of the collector cannot run again in a process in which
    its [Execute] has returned: what is then stored under ["stats"] is the
    [UserMessageCount] itself and not a [map[string]interface{}], and the
    type assertion of [Init] panics. *)
Theorem Init_after_Execute_panics u p w p' w' e :
  infoCollector_Execute u p w = Returned (p', w', e) ->
  returns (infoCollector_Init p') = false.
Proof.
  intros Hrun.
  destruct (sender u) as [key|] eqn:Hk;
    [|unfold infoCollector_Execute in Hrun; by rewrite Hk in Hrun].
  destruct (userMessages p) as [l|] eqn:Hl.
  - destruct (Config_ (bot p)) as [|m] eqn:Hc.
    + unfold infoCollector_Execute in Hrun. rewrite Hk, Hl in Hrun.
      cbn [mbind Outcome_bind] in Hrun.
      destruct (deref (heap p) (Some l) !! key); cbn [store mbind Outcome_bind] in Hrun;
        unfold Set_ in Hrun; cbn in Hrun; by rewrite Hc in Hrun.
    + destruct (infoCollector_Execute_step u p w m l key Hc Hl Hk)
        as (p1 & w1 & Hrun1 & Hc1 & _).
      rewrite Hrun1 in Hrun. simplify_eq.
      unfold infoCollector_Init, Get, index. rewrite Hc1. cbn.
      by rewrite lookup_insert_eq.
  - unfold infoCollector_Execute in Hrun. rewrite Hk, Hl in Hrun.
    cbn [mbind Outcome_bind] in Hrun. by destruct (deref (heap p) None !! key).
Qed.

End CollectorSteps.

Lemma infoCollector_Execute_counts_one_witness :
  exists p' w',
    infoCollector_Execute (message_from "alice") counting_process empty_world
      = Returned (p', w', None)
    /\ stored_counts p' !! "alice" = Some 4
    /\ stored_counts p' !! "bob" = None.
Proof.
  destruct (infoCollector_Execute_counts_one (S := unit) (message_from "alice")
              counting_process empty_world ∅ 0%nat "alice" eq_refl eq_refl eq_refl)
    as (p' & w' & Hrun & _ & Hmore & _ & Hother).
  exists p', w'. split; [exact Hrun|]. split.
  - apply (Hmore 3); [reflexivity|]. unfold int_min, int_max. lia.
  - rewrite (Hother "bob") by discriminate. reflexivity.
Defined.


Lemma Init_after_Execute_panics_witness :
  exists p' w',
    infoCollector_Execute (message_from "alice") fresh_process empty_world
      = Returned (p', w', None)
    /\ returns (infoCollector_Init p') = false.
Proof.
  eexists _, _. split; [reflexivity|].
  exact (Init_after_Execute_panics (S := unit) (message_from "alice") fresh_process
           empty_world _ _ None eq_refl).
Defined.

(** ** The placeholder of the name of the bot *)

Section Placeholder.

Context {S : Type}.
Implicit Types (p : Process S) (w : World) (new s : string).

Lemma has_atat_cons c s :
  has_atat (String c s) = (Ascii.eqb c "@" && starts_with_at s) || has_atat s.
Proof. destruct s; cbn; [by rewrite andb_false_r | done]. Qed.

Lemma replace_atat_unchanged new s : has_atat s = false -> replace_atat new s = s.
Proof.
  induction s as [|c s IH]; [done|]. rewrite has_atat_cons. intros Hs.
  apply orb_false_elim in Hs as [Hpair Hrest].
  destruct s as [|c' r]; [done|]. rewrite replace_atat_cons.
  cbn [starts_with_at] in Hpair. rewrite Hpair. f_equal. by apply IH.
Qed.

(** X9. A message without ["@@"] in its text is sent as it is: when the
    service takes it, [SendMessage] returns the nil error and the message
    the service has got is the one that was given. *)
Theorem SendMessage_without_placeholder p message w :
  has_atat (msg_Text message) = false ->
  api_online w = true ->
  snd (SendMessage p message w) = None
  /\ outbox (fst (SendMessage p message w)) = outbox w ++ [message]
  /\ captured (fst (SendMessage p message w)) = captured w.
Proof.
  intros Htext Hon. unfold SendMessage, API_Send.
  rewrite Hon, (replace_atat_unchanged _ _ Htext). by destruct message.
Qed.

Lemma has_atat_app_plain a x :
  has_at a = false ->
  has_atat (a +:+ x) = has_atat x
  /\ (a <> "" -> starts_with_at (a +:+ x) = false).
Proof.
  induction a as [|c a IH]; [done|]. cbn [has_at]. intros Ha.
  apply orb_false_elim in Ha as [Hc Ha]. destruct (IH Ha) as [IH1 _].
  rewrite append_cons, has_atat_cons, Hc, IH1. cbn. by rewrite Hc.
Qed.

Lemma starts_with_at_replace new c r :
  Ascii.eqb c "@" = false ->
  starts_with_at (replace_atat new (String c r)) = false.
Proof.
  intros Hc. destruct r as [|c' r]; cbn [replace_atat]; [by cbn|].
  rewrite Hc. cbn. exact Hc.
Qed.

Lemma replace_atat_clean name : forall n s,
  name <> "" -> has_at name = false ->
  (String.length s <= n)%nat ->
  has_atat (replace_atat (String "@" name) s) = false.
Proof.
  intros n s Hne Hname. revert s.
  induction n as [|n IH]; intros s Hlen.
  - destruct s; [done | cbn in Hlen; lia].
  - destruct s as [|c [|c' r]]; [done | done |].
    rewrite replace_atat_cons. cbn [String.length] in Hlen.
    destruct (Ascii.eqb c "@" && Ascii.eqb c' "@") eqn:Hpair.
    + change (String "@" name +:+ ?x) with (String "@" (name +:+ x)).
      destruct (has_atat_app_plain name (replace_atat (String "@" name) r) Hname)
        as [Hrest Hstart].
      rewrite has_atat_cons, Hrest, (Hstart Hne), andb_false_r. cbn.
      apply IH. lia.
    + rewrite has_atat_cons, (IH (String c' r)) by (cbn [String.length]; lia).
      rewrite orb_false_r.
      destruct (Ascii.eqb c "@") eqn:Hc; [|done]. cbn in Hpair.
      by rewrite (starts_with_at_replace _ _ _ Hpair).
Qed.

(** X10. When the user name of the bot is not empty and has no ["@"],
    no ["@@"] is left in a text that [SendMessage] sends, whatever the text
    was. *)
Theorem SendMessage_leaves_no_placeholder p message w :
  API_Self_UserName (bot p) <> "" ->
  has_at (API_Self_UserName (bot p)) = false ->
  api_online w = true ->
  exists sent,
    outbox (fst (SendMessage p message w)) = outbox w ++ [sent]
    /\ has_atat (msg_Text sent) = false
    /\ msg_ChatID sent = msg_ChatID message
    /\ msg_ReplyToMessageID sent = msg_ReplyToMessageID message.
Proof.
  intros Hne Hname Hon. unfold SendMessage, API_Send. rewrite Hon.
  eexists. split; [reflexivity|]. cbn. repeat split.
  exact (replace_atat_clean _ _ (msg_Text message) Hne Hname (Nat.le_refl _)).
Qed.

End Placeholder.

Lemma SendMessage_without_placeholder_witness :
  outbox (fst (SendMessage fresh_process (tgbotapi_NewMessage 7 "a@b, hello") empty_world))
    = [tgbotapi_NewMessage 7 "a@b, hello"].
Proof.
  destruct (SendMessage_without_placeholder (S := unit) fresh_process
              (tgbotapi_NewMessage 7 "a@b, hello") empty_world eq_refl eq_refl)
    as (_ & Hout & _).
  exact Hout.
Defined.

Lemma SendMessage_leaves_no_placeholder_witness :
  exists sent,
    outbox (fst (SendMessage fresh_process (tgbotapi_NewMessage 7 "/help@@@ or @@@@")
                   empty_world)) = [sent]
    /\ has_atat (msg_Text sent) = false.
Proof.
  edestruct (SendMessage_leaves_no_placeholder (S := unit) fresh_process
               (tgbotapi_NewMessage 7 "/help@@@ or @@@@") empty_world)
    as (sent & Hout & Hclean & _); [discriminate | reflexivity | reflexivity |].
  exists sent. split; [exact Hout | exact Hclean].
Defined.

(** With an empty user name the replacement makes a new ["@@"]. *)
Example placeholder_with_empty_name :
  replace_atat ("@" +:+ "") "@@@@" = "@@".
Proof. reflexivity. Qed.

Lemma helpCommand_Execute_sends_witness :
  exists w' msg,
    helpCommand_Execute (fun _ => "") help_update help_process empty_world
      = Returned (w', None)
    /\ outbox w' = [msg]
    /\ msg_Text msg = "Loaded commands:

Help
Displays loaded commands and their help text
Example: /help@finchbot

Stats
Displays some statistics
Example: /stats@finchbot

".
Proof.
  destruct (helpCommand_Execute_sends (S := unit) (fun _ => "") help_update help_process
              empty_world help_request eq_refl) as (w' & msg & Hrun & Hout & Htext);
    [discriminate | reflexivity |].
  exists w', msg. split; [exact Hrun|]. split; [exact Hout | exact Htext].
Defined.

(** ** The help listing: commands without a description, and the listing
    for the bot father *)

Section HelpMore.

Context {S : Type}.
Variable BotfatherString : Help.t -> string.
Implicit Types (cs : list (CommandState S)) (f : Finch S) (m : Message).

Lemma listing_described_only cs :
  listing (map Command_ (described_only cs)) = listing (map Command_ cs).
Proof.
  induction cs as [|c cs IH]; [done|]. cbn [described_only List.filter map].
  fold (described_only cs).
  case_bool_decide as Hd; cbn [negb map listing foldr].
  - fold (listing (map Command_ cs)). unfold help_entry.
    rewrite decide_True by done. exact IH.
  - fold (listing (map Command_ cs)) (listing (map Command_ (described_only cs))).
    by rewrite IH.
Qed.

(** X12. A command without a description is not in the help listing, and
    it is the only way not to be: the text is the same as for the
    registry without the commands that have no description, and every
    command that has one has its entry, [Help.String] in full, in the
    text. *)
Theorem help_listing_skips_undescribed f m :
  CommandArguments m <> "botfather" ->
  helpCommand_text BotfatherString f m
    = helpCommand_text BotfatherString
        (mkFinch (API_Self_UserName f) (Config_ f) (described_only (Commands f))) m
  /\ forall before c after,
       Commands f = before ++ c :: after ->
       Help.Description (Help (Command_ c)) <> "" ->
       helpCommand_text BotfatherString f m
         = (listing_heading +:+ listing (map Command_ before))
             +:+ Help.String (Help (Command_ c)) true
             +:+ listing (map Command_ after).
Proof.
  intros Hargs. split.
  - rewrite !helpCommand_text_listing by done. cbn [Commands].
    by rewrite listing_described_only.
  - intros before c after Hcs Hd.
    rewrite helpCommand_text_listing by done. rewrite Hcs, map_app, listing_app.
    cbn [map listing foldr]. fold (listing (map Command_ after)).
    unfold help_entry at 1. rewrite decide_False by done.
    by rewrite append_assoc.
Qed.




End HelpMore.

Lemma help_listing_skips_undescribed_witness :
  helpCommand_text (fun _ => "") sample_bot help_request
    = helpCommand_text (fun _ => "")
        (mkFinch "finchbot" (MapConfig ∅)
           [mkCommandState (described helpCommand_Help) false;
            mkCommandState (described infoCommand_Help) false]) help_request.
Proof.
  destruct (help_listing_skips_undescribed (S := unit) (fun _ => "") sample_bot help_request)
    as [Hsame _]; [discriminate|].
  exact Hsame.
Defined.


(** ** The start of the bot *)

Section StartProperties.

Context {S : Type}.
Implicit Types (p : Process S) (w : World).

(** X14. The bot is made from a configuration file that holds a JSON
    object. Without ["sentry_dsn"] in it, the start leaves the error
    tracker off; with a string, the tracker is switched on and gets the
    string; with anything else there (a number, [null], an object), the
    type assertion of the start panics. *)
Theorem Start_needs_a_string_dsn self commands w m b p :
  ioutil_ReadFile w (configFileName w) = inl (Document (JObject m)) ->
  NewFinchWithClient self commands w = Returned b ->
  bot p = b ->
  (m !! "sentry_dsn" = None -> Start_sentry p = Returned (p, None))
  /\ (forall dsn, m !! "sentry_dsn" = Some (JString dsn) ->
        Start_sentry p
          = Returned (mkProcess (bot p) true (heap p) (userMessages p), Some dsn))
  /\ (forall j, m !! "sentry_dsn" = Some j -> (forall dsn, j <> JString dsn) ->
        returns (Start_sentry p) = false).
Proof.
  intros Hread Hnew Hp.
  assert (entries (Config_ (bot p)) !! "sentry_dsn" = fromJSON <$> m !! "sentry_dsn") as He.
  { unfold NewFinchWithClient in Hnew. destruct (api_online w); [|done].
    unfold LoadConfig in Hnew. rewrite Hread in Hnew. cbn in Hnew.
    injection Hnew as Hb. rewrite Hp, <- Hb. cbn.
    by rewrite map_union_empty, lookup_fmap. }
  unfold Start_sentry. rewrite He. split; [|split].
  - by intros ->.
  - by intros dsn ->.
  - intros j -> Hj. destruct j; cbn; try done. by destruct (Hj s).
Qed.

End StartProperties.

Lemma Start_needs_a_string_dsn_witness :
  exists b : Finch unit,
    NewFinchWithClient "finchbot" [] numeric_dsn_world = Returned b
    /\ returns (Start_sentry (mkProcess b false ∅ None)) = false.
Proof.
  exists (mkFinch "finchbot" (MapConfig {[ "sentry_dsn" := VFloat64 (F64 1 0) ]}) []).
  split; [vm_compute; reflexivity|].
  destruct (Start_needs_a_string_dsn (S := unit) "finchbot" [] numeric_dsn_world
              {[ "sentry_dsn" := JNumber (F64 1 0) ]}
              (mkFinch "finchbot" (MapConfig {[ "sentry_dsn" := VFloat64 (F64 1 0) ]}) [])
              (mkProcess (mkFinch "finchbot"
                            (MapConfig {[ "sentry_dsn" := VFloat64 (F64 1 0) ]}) [])
                         false ∅ None))
    as (_ & _ & Hbad); [reflexivity | vm_compute; reflexivity | reflexivity |].
  apply (Hbad (JNumber (F64 1 0))); [reflexivity | discriminate].
Defined.

(** ** The command that shows the counts *)

Section InfoCommand.

Context {S : Type}.
Implicit Types (p : Process S) (w : World) (visited : list (string * Z)).

Lemma infoCommand_fold visited : forall b,
  foldl (fun b '(userName, count) =>
           let b := b +:+ userName in
           let b := b +:+ " - " in
           let b := b +:+ strconv_Itoa count in
           b +:+ newline) b visited
    = b +:+ count_lines visited.
Proof.
  induction visited as [|[user n] visited IH]; intros b; cbn [foldl count_lines foldr].
  - by rewrite append_nil_r.
  - fold (count_lines visited). rewrite IH. unfold count_line.
    by rewrite !append_assoc.
Qed.

Lemma infoCommand_text_lines visited :
  infoCommand_text visited = "Users seen

" +:+ count_lines visited.
Proof. unfold infoCommand_text. exact (infoCommand_fold visited _). Qed.

Lemma count_lines_app visited1 visited2 :
  count_lines (visited1 ++ visited2) = count_lines visited1 +:+ count_lines visited2.
Proof.
  induction visited1 as [|[user n] visited1 IH]; [done|].
  cbn [app count_lines foldr]. fold (count_lines (visited1 ++ visited2)).
  fold (count_lines visited1). by rewrite IH, append_assoc.
Qed.

Lemma count_line_in_text visited user n :
  (user, n) ∈ visited ->
  exists pre post, infoCommand_text visited = pre +:+ count_line user n +:+ post.
Proof.
  intros Hin. apply list_elem_of_split in Hin as (l1 & l2 & ->).
  rewrite infoCommand_text_lines, count_lines_app. cbn [count_lines foldr].
  fold (count_lines l2). eexists _, _. by rewrite <- append_assoc.
Qed.

(** X15. The command that shows the counts answers the message that asks
    for them, in its chat. Whatever the order in which the map of the
    counts is visited, the text that goes to [SendMessage] is the heading
    and one line for every entry of the map, and for every user with a
    count [n] it has the line of the user's name, [" - "], and the decimal
    digits of [n]. *)
Theorem infoCommand_shows_counts update m visited p w :
  Message_ update = Some m ->
  visited ≡ₚ map_to_list (deref (heap p) (userMessages p)) ->
  api_online w = true ->
  exists w' msg,
    infoCommand_Execute update visited p w = Returned (w', None)
    /\ outbox w' = outbox w ++ [msg]
    /\ msg_ChatID msg = Chat_ID m
    /\ msg_ReplyToMessageID msg = MessageID m
    /\ msg_Text msg
       = replace_atat ("@" +:+ API_Self_UserName (bot p)) (infoCommand_text visited)
    /\ infoCommand_text visited = "Users seen

" +:+ count_lines visited
    /\ length visited = size (deref (heap p) (userMessages p))
    /\ forall user n,
         deref (heap p) (userMessages p) !! user = Some n ->
         exists pre post, infoCommand_text visited = pre +:+ count_line user n +:+ post.
Proof.
  intros Hm Hperm Hon. unfold infoCommand_Execute, SendMessage, API_Send.
  rewrite Hm, Hon. eexists _, _. split; [reflexivity|].
  split; [reflexivity|]. split; [reflexivity|]. split; [reflexivity|].
  split; [reflexivity|]. split; [apply infoCommand_text_lines|]. split.
  - by rewrite Hperm, length_map_to_list.
  - intros user n Hn. apply count_line_in_text. rewrite Hperm.
    by apply elem_of_map_to_list.
Qed.

(** X16. After the collector has counted the updates of a list, from a
    fresh start, the text of the command that shows the counts has, for
    every sender of an update, the line with the sender's name and the
    number of its updates. *)
Theorem stats_text_after_run us p w m l visited :
  Config_ (bot p) = MapConfig m ->
  userMessages p = Some l ->
  deref (heap p) (Some l) = ∅ ->
  Forall (fun u => usable u = true) us ->
  Z.of_nat (length us) <= int_max ->
  exists p' w',
    run_collector us p w = Returned (p', w')
    /\ (visited ≡ₚ map_to_list (deref (heap p') (userMessages p')) ->
        forall name, messages_from name us <> 0 ->
          exists pre post,
            infoCommand_text visited
              = pre +:+ count_line name (messages_from name us) +:+ post).
Proof.
  intros Hc Hl Hempty Hus Hlen.
  destruct (run_collector_counts us p w m l Hc Hl Hus) as (p' & w' & Hrun & Hl' & Hd & _).
  exists p', w'. split; [exact Hrun|]. intros Hperm name Hname.
  apply count_line_in_text. rewrite Hperm, Hl'. apply elem_of_map_to_list.
  rewrite Hd, Hempty, counts_after_lookup; [|done|intros k n; by rewrite lookup_empty].
  rewrite lookup_empty. by rewrite decide_False.
Qed.

End InfoCommand.

Lemma infoCommand_shows_counts_witness :
  exists w' msg,
    infoCommand_Execute stats_update [("alice", 3)] counting_process empty_world
      = Returned (w', None)
    /\ outbox w' = [msg]
    /\ msg_ReplyToMessageID msg = 9
    /\ infoCommand_text [("alice", 3)] = "Users seen

alice - 3
".
Proof.
  edestruct (infoCommand_shows_counts (S := unit) stats_update
               (mkMessage 9 (Some (mkUser "carol" "" "")) 7 "/stats" "")
               [("alice", 3)] counting_process empty_world)
    as (w' & msg & Hrun & Hout & _ & Hreply & _ & Htext & _);
    [reflexivity | vm_compute; reflexivity | reflexivity |].
  exists w', msg. split; [exact Hrun|]. split; [exact Hout|].
  split; [exact Hreply | exact Htext].
Defined.

Lemma stats_text_after_run_witness :
  exists pre post,
    infoCommand_text [("bob", 2); ("alice", 3)] = pre +:+ "alice - 3
" +:+ post.
Proof.
  destruct (stats_text_after_run (S := unit) alice_bob_updates fresh_process empty_world
              ∅ 0%nat [("bob", 2); ("alice", 3)])
    as (p' & w' & Hrun & Htext);
    [reflexivity | reflexivity | reflexivity | repeat constructor
    | unfold int_max; cbn; lia |].
  vm_compute in Hrun. injection Hrun as <- <-.
  apply (Htext ltac:(vm_compute; apply perm_swap) "alice"). discriminate.
Defined.

(** ** Counting on, and replying *)

Section More.

Context {S : Type}.
Implicit Types (p : Process S) (w : World) (us : list Update).


(** X17. [QuickReply] answers in the chat of the message and as a reply
    to it, with the name of the bot for every ["@@"] of the text. Its error
    is the one of the service: when the service takes the message the
    error is nil, and when it does not, nothing is sent, the error is
    returned to the caller, and it goes to the error tracker exactly when
    that is switched on. *)
Theorem QuickReply_outcome p message text w :
  (api_online w = true ->
     snd (QuickReply p message text w) = None
     /\ outbox (fst (QuickReply p message text w))
        = outbox w ++ [mkMessageConfig (Chat_ID message)
                         (replace_atat ("@" +:+ API_Self_UserName (bot p)) text)
                         (MessageID message) ""]
     /\ captured (fst (QuickReply p message text w)) = captured w)
  /\ (api_online w = false ->
        snd (QuickReply p message text w) = Some APIError
        /\ outbox (fst (QuickReply p message text w)) = outbox w
        /\ captured (fst (QuickReply p message text w))
           = captured w ++ (if sentryEnabled p then [APIError] else [])).
Proof.
  unfold QuickReply, SendMessage, API_Send. split; intros ->; cbn.
  - done.
  - destruct (sentryEnabled p); cbn; [done|]. by rewrite app_nil_r.
Qed.

End More.


Lemma QuickReply_outcome_witness :
  outbox (fst (QuickReply fresh_process help_request "try /help@@" empty_world))
    = [mkMessageConfig 7 "try /help@finchbot" 1 ""].
Proof.
  destruct (QuickReply_outcome (S := unit) fresh_process help_request "try /help@@"
              empty_world) as [Hok _].
  destruct (Hok eq_refl) as (_ & Hout & _). exact Hout.
Defined.
